(** * browser_use console front-end: session loop and situation summarizer

    A shallow embedding of [src/browser_use/situation_summarizer.py] and
    [src/browser_use/main.py].

    Both files are glue around two external collaborators (the browser
    automation library and the model client).  The collaborators are
    modelled as records of methods; every call into them, every console
    line and every log record is appended to a trace, so that the theorems
    can talk about what the program did and in which order. *)

From Stdlib Require Import String Ascii NArith Bool Arith Lia List.
Import ListNotations.

Set Implicit Arguments.

(* ===================================================================== *)
(** ** Python strings *)
(* ===================================================================== *)

(** A Python [str] is a sequence of Unicode code points.  Literals of the
    source are written as UTF-8 text and decoded by [u]. *)
Module PyStr.

Definition pystr := list N.

Definition cont (b : N) : N := N.land b 63.

Fixpoint utf8_decode (bs : list N) : pystr :=
  match bs with
  | [] => []
  | b0 :: r0 =>
      if (b0 <? 128)%N then b0 :: utf8_decode r0
      else if (b0 <? 224)%N then
        match r0 with
        | b1 :: r1 => (N.land b0 31 * 64 + cont b1)%N :: utf8_decode r1
        | _ => []
        end
      else if (b0 <? 240)%N then
        match r0 with
        | b1 :: b2 :: r2 =>
            ((N.land b0 15 * 64 + cont b1) * 64 + cont b2)%N :: utf8_decode r2
        | _ => []
        end
      else
        match r0 with
        | b1 :: b2 :: b3 :: r3 =>
            (((N.land b0 7 * 64 + cont b1) * 64 + cont b2) * 64 + cont b3)%N
              :: utf8_decode r3
        | _ => []
        end
  end.

Definition u (s : string) : pystr :=
  utf8_decode (map N_of_ascii (list_ascii_of_string s)).

(** [a + b], also the joins an f-string makes. *)
Definition cat (a b : pystr) : pystr := a ++ b.

(** [str.__eq__] *)
Fixpoint eqb (a b : pystr) : bool :=
  match a, b with
  | [], [] => true
  | x :: a', y :: b' => (x =? y)%N && eqb a' b'
  | _, _ => false
  end.

(** Truth value of a [str]: non-empty. *)
Definition truthy (s : pystr) : bool :=
  match s with [] => false | _ :: _ => true end.

(** [s * n] *)
Fixpoint mul (s : pystr) (n : nat) : pystr :=
  match n with
  | O => []
  | S k => cat s (mul s k)
  end.

(** The code points [str.strip()] removes when called without argument
    (CPython's [_PyUnicode_IsWhitespace]). *)
Definition is_whitespace (c : N) : bool :=
  ((9 <=? c) && (c <=? 13) || (28 <=? c) && (c <=? 32)
   || (c =? 133) || (c =? 160) || (c =? 5760)
   || (8192 <=? c) && (c <=? 8202)
   || (c =? 8232) || (c =? 8233) || (c =? 8239) || (c =? 8287)
   || (c =? 12288))%N.

Fixpoint lstrip (s : pystr) : pystr :=
  match s with
  | [] => []
  | c :: r => if is_whitespace c then lstrip r else s
  end.

Definition rstrip (s : pystr) : pystr := rev (lstrip (rev s)).

Definition strip (s : pystr) : pystr := rstrip (lstrip s).

Definition newline : pystr := [10%N].

End PyStr.

Import PyStr.

Infix "+++" := cat (right associativity, at level 60).

(* ===================================================================== *)
(** ** Data model *)
(* ===================================================================== *)

(** A raised Python exception object.  [exc_is_Exception] tells whether its
    class derives from [Exception] (and so is caught by [except Exception]);
    [KeyboardInterrupt], [SystemExit] and [asyncio.CancelledError] do not.
    [exc_str] is [str(e)], [exc_traceback] the text [traceback.format_exc()]
    renders while the exception is being handled. *)
Record PyExc : Type := mkExc {
  exc_type : pystr;
  exc_is_Exception : bool;
  exc_str : pystr;
  exc_traceback : pystr
}.

(** What a call does: return a value or raise. *)
Inductive outcome (A : Type) : Type :=
| Ret (a : A)
| Raise (e : PyExc).
Arguments Ret {A} a.
Arguments Raise {A} e.

(** browser_use.llm.messages *)
Record ImageURL : Type := mkImageURL {
  url : pystr;
  media_type : pystr
}.

Inductive ContentPart : Type :=
| ContentPartTextParam (text : pystr)
| ContentPartImageParam (image_url : ImageURL).

Inductive Message : Type :=
| SystemMessage (content : pystr)
| UserMessage (content : list ContentPart).

(** browser_use.browser.views: the page state snapshot.  A [dom_state] object
    may or may not carry the [llm_representation] method; when it does, the
    field holds what calling it does. *)
Record SerializedDOMState : Type := mkDom {
  llm_representation : option (outcome pystr)
}.

Record BrowserStateSummary : Type := mkState {
  dom_state : option SerializedDOMState;
  screenshot : option pystr
}.

(** A Python value as far as [isinstance(_, str)] and [str(_)] see it. *)
Inductive PyValue : Type :=
| PyStr (s : pystr)
| PyObject (str_of : pystr).

Definition isinstance_str (v : PyValue) : bool :=
  match v with PyStr _ => true | PyObject _ => false end.

Definition py_str (v : PyValue) : pystr :=
  match v with PyStr s => s | PyObject s => s end.

(** The object [llm.ainvoke] returns: its [completion] attribute when it has
    one, and what [str(response)] gives. *)
Record Response : Type := mkResponse {
  completion : option PyValue;
  response_str : pystr
}.

(** situation_summarizer.py, lines 18-22 *)
Record SituationSummary : Type := mkSituationSummary {
  raw_response : pystr;
  summary : pystr;
  suggested_actions : pystr
}.

Record BrowserProfile : Type := mkProfile {
  headless : bool;
  no_viewport : bool;
  keep_alive : bool;
  window_size : option (N * N);
  window_position : option (N * N)
}.

(* ===================================================================== *)
(** ** Observable events *)
(* ===================================================================== *)

Inductive level : Type := INFO | WARNING | ERROR.

Inductive event : Type :=
| EPrint (line : pystr)                              (* print(line) *)
| EInput (prompt : pystr) (r : outcome pystr)        (* input(prompt) *)
| ELog (lvl : level) (msg : pystr)                   (* self.logger.<lvl>(msg) *)
| EGetState (r : outcome BrowserStateSummary)
    (* await browser_context.get_browser_state_summary(include_screenshot=True) *)
| ELlmRepresentation (r : outcome pystr)             (* dom_state.llm_representation() *)
| EInvoke (messages : list Message) (r : outcome Response)  (* await llm.ainvoke(messages) *)
| ESummarize (user_query : pystr)
    (* call of summarize_page_state_from_session(user_query=..., ...) *)
| EAgent (task : pystr) (flash_mode : bool)          (* Agent(task=..., flash_mode=...) *)
| EAgentRun (task : pystr) (r : outcome unit)        (* await agent.run() *)
| EKill (r : outcome unit)                           (* await browser.kill() *)
| EStop (r : outcome unit).                          (* await browser.stop() *)

(** The external objects.  A method's behaviour may depend on everything that
    happened before the call, so it is a function of the trace so far;
    [kill] and [stop] are [None] when the handle does not expose them. *)
Record BrowserSession : Type := mkBrowser {
  browser_profile : option BrowserProfile;
  get_browser_state_summary : list event -> outcome BrowserStateSummary;
  kill : option (list event -> outcome unit);
  stop : option (list event -> outcome unit)
}.

Record BaseChatModel : Type := mkLlm {
  ainvoke : list event -> list Message -> outcome Response
}.

(** [Agent(...).run()] of the library, for a task text. *)
Record AgentLib : Type := mkAgentLib {
  agent_run : list event -> pystr -> outcome unit
}.

(* ===================================================================== *)
(** ** The effect monad *)
(* ===================================================================== *)

Record World : Type := mkWorld {
  trace : list event;                 (* oldest event first *)
  stdin : list pystr;                 (* lines still to be read *)
  profile : option BrowserProfile     (* browser.browser_profile, mutable *)
}.

Definition M (A : Type) : Type := World -> outcome A * World.

Definition ret {A} (a : A) : M A := fun w => (Ret a, w).

Definition raise {A} (e : PyExc) : M A := fun w => (Raise e, w).

Definition bind {A B} (m : M A) (k : A -> M B) : M B :=
  fun w =>
    match m w with
    | (Ret a, w') => k a w'
    | (Raise e, w') => (Raise e, w')
    end.

Declare Scope py_scope.
Delimit Scope py_scope with py.
Notation "x <- m ;; k" := (bind m (fun x => k))
  (at level 61, m at next level, right associativity) : py_scope.
Notation "m ;; k" := (bind m (fun _ => k))
  (at level 61, right associativity) : py_scope.
Open Scope py_scope.

Definition record (e : event) (w : World) : World :=
  mkWorld (trace w ++ [e]) (stdin w) (profile w).

Definition emit (e : event) : M unit := fun w => (Ret tt, record e w).

(** [try: body  except Exception as e: handler e] *)
Definition try_except {A} (body : M A) (handler : PyExc -> M A) : M A :=
  fun w =>
    match body w with
    | (Raise e, w') =>
        if exc_is_Exception e then handler e w' else (Raise e, w')
    | r => r
    end.

(** [finally: cleanup], run on the result of the protected block. *)
Definition finally_ {A} (r : outcome A * World) (cleanup : M unit)
  : outcome A * World :=
  match cleanup (snd r) with
  | (Ret _, w') => (fst r, w')
  | (Raise e, w') => (Raise e, w')
  end.

Definition try_finally {A} (body : M A) (cleanup : M unit) : M A :=
  fun w => finally_ (body w) cleanup.

(** Console and logging. *)
Definition print (s : pystr) : M unit := emit (EPrint s).

Definition EOFError : PyExc :=
  mkExc (u "EOFError") true (u "EOF when reading a line")
        (u "EOFError: EOF when reading a line").

Definition input (prompt : pystr) : M pystr :=
  fun w =>
    match stdin w with
    | [] => (Raise EOFError, record (EInput prompt (Raise EOFError)) w)
    | l :: rest =>
        (Ret l, mkWorld (trace w ++ [EInput prompt (Ret l)]) rest (profile w))
    end.

Definition logger (lvl : level) (msg : pystr) : M unit := emit (ELog lvl msg).

(** Calls into the collaborators: the outcome is what the object does after
    the trace so far, and the call is recorded together with its outcome. *)
Definition call {A} (r : list event -> outcome A) (ev : outcome A -> event)
  : M A :=
  fun w => let o := r (trace w) in (o, record (ev o) w).

(** The events a computation adds to the trace. *)
Definition new_events {A} (m : M A) (w : World) : list event :=
  skipn (length (trace w)) (trace (snd (m w))).

Definition result {A} (m : M A) (w : World) : outcome A := fst (m w).

(* ===================================================================== *)
(** ** situation_summarizer.py *)
(* ===================================================================== *)

(** [SituationSummarizer.__init__] stores its three arguments. *)
Record SituationSummarizer : Type := mkSummarizer {
  browser_context : BrowserSession;
  llm : BaseChatModel;
  user_query : pystr
}.

Definition default_query : pystr := u "今の画面はどうなっている？".

Definition fallback_ui_text : pystr := u "UI要素リストを取得できませんでした。".

Definition placeholder : pystr := u "詳細は raw_response を参照".

Definition no_screenshot_warning : pystr :=
  u "⚠️ スクリーンショットが取得できませんでした。".

Definition fatal_error_prefix : pystr :=
  u "❌ 要約処理中に致命的なエラーが発生しました:" +++ newline.

(** Lines 45-47. *)
Definition query_instruction (user_query : pystr) : pystr :=
  if truthy user_query && negb (eqb user_query default_query)
  then newline +++ newline +++ u "ユーザーからは「" +++ user_query
       +++ u "」という関心・疑問が提示されています。これに対する回答を含めて要約してください。"
  else [].

(** Lines 49-59: the f-string with its one hole. *)
Definition system_prompt (query_instruction : pystr) : pystr :=
  u "あなたは優れたUI/UXアナリストです。
現在ユーザーが開いているWebページのスクリーンショットと、検出されたUI要素のリストが提供されます。
これらを空間的に完全に結びつけて分析し、以下の2点を出力してください。"
  +++ query_instruction +++
  u "

1. **状況要約**: 
   画面上に映っている画面が現在どういう状況にあるか（何のためのページか、どういう状態か）を簡潔に説明してください。
   
2. **主な操作内容**: 
   このサイト上で可能な操作内容の上位3〜5件程度をリストアップしてください。
   各操作には、必ず対応するUI要素の番号（例: [12]）を併記してください。
".

(** Line 69. *)
Definition user_text (ui_elements_text : pystr) : pystr :=
  u "以下のUI要素リストと添付のスクリーンショットをもとに、画面状況を要約してください。"
  +++ newline +++ newline +++ u "## UI要素リスト" +++ newline +++ ui_elements_text.

(** Lines 76-81. *)
Definition screenshot_part (shot : pystr) : ContentPart :=
  ContentPartImageParam
    (mkImageURL (u "data:image/png;base64," +++ shot) (u "image/png")).

(** Truth value of [state.screenshot] ([None] or a string). *)
Definition screenshot_truthy (state : BrowserStateSummary) : bool :=
  match screenshot state with
  | Some s => truthy s
  | None => false
  end.

(** [SituationSummarizer.summarize], lines 31-112. *)
Definition summarize (self : SituationSummarizer) : M SituationSummary :=
  try_except
    (logger INFO (u "🔍 [1/4] 画面の状況要約を開始します...") ;;
     state <- call (get_browser_state_summary (browser_context self)) EGetState ;;
     logger INFO (u "🔍 [2/4] UIリストのテキスト化を実行中...") ;;
     ui_elements_text <-
       match dom_state state with
       | Some dom =>
           match llm_representation dom with
           | Some method => call (fun _ => method) ELlmRepresentation
           | None => ret fallback_ui_text
           end
       | None => ret fallback_ui_text
       end ;;
     let query_instruction := query_instruction (user_query self) in
     let system_prompt := system_prompt query_instruction in
     logger INFO (u "🔍 [3/4] LLMプロンプトを構築中...") ;;
     let content_list := [] in
     let content_list :=
       content_list ++ [ContentPartTextParam (user_text ui_elements_text)] in
     content_list <-
       match screenshot state with
       | Some shot =>
           if truthy shot
           then ret (content_list ++ [screenshot_part shot])
           else logger WARNING no_screenshot_warning ;; ret content_list
       | None => logger WARNING no_screenshot_warning ;; ret content_list
       end ;;
     let messages := [SystemMessage system_prompt; UserMessage content_list] in
     logger INFO (u "🔍 [4/4] LLMへリクエストを送信中...") ;;
     response <- call (fun tr => ainvoke (llm self) tr messages) (EInvoke messages) ;;
     let content :=
       match completion response with
       | Some v => v
       | None => PyStr (response_str response)
       end in
     let content :=
       if isinstance_str content then content else PyStr (py_str content) in
     logger INFO (u "✅ 状況要約が完了しました") ;;
     ret (mkSituationSummary (py_str content) placeholder placeholder))
    (fun e =>
       logger ERROR (fatal_error_prefix +++ exc_traceback e) ;;
       raise e).

(** Lines 114-120. *)
Definition summarize_page_state_from_session
    (user_query : pystr) (session : BrowserSession) (llm : BaseChatModel)
  : M pystr :=
  emit (ESummarize user_query) ;;
  let summarizer := mkSummarizer session llm user_query in
  result <- summarize summarizer ;;
  ret (raw_response result).

(* ===================================================================== *)
(** ** main.py *)
(* ===================================================================== *)

Definition ValueError (msg : pystr) : PyExc :=
  mkExc (u "ValueError") true msg (u "ValueError: " +++ msg).

(** How one pass through the body of [while True] ends: by [break], or by
    [continue] or falling off the end. *)
Inductive ctl : Type := Continue | Break.

Section SessionLoop.

Variable llm : BaseChatModel.
Variable browser : BrowserSession.
Variable Agent : AgentLib.

(** Lines 45-50. *)
Definition print_menu : M unit :=
  print (newline +++ mul (u "=") 40) ;;
  print (u "[メニュー]") ;;
  print (u "1: タスク実行 (Agent)") ;;
  print (u "2: 状況要約 (Summarizer)") ;;
  print (u "q: 終了") ;;
  print (mul (u "=") 40).

Definition summarize_error_hint : pystr :=
  u "※まだブラウザが開いていない場合、先に「1」で何らかのタスク（例: 'Googleを開いて'）を実行してください。".

(** Lines 45-97: the body of the [while True] loop. *)
Definition loop_body : M ctl :=
  print_menu ;;
  line <- input (u "選択してください >> ") ;;
  let choice := strip line in
  if eqb choice (u "q") then
    print (u "終了します。") ;;
    ret Break
  else if eqb choice (u "1") then
    task_content <- input (u "実行したいタスクを入力してください >> ") ;;
    if negb (truthy task_content) then ret Continue
    else
      emit (EAgent task_content true) ;;
      print (newline +++ u ">>> Agentを実行します: " +++ task_content) ;;
      try_except
        (call (fun tr => agent_run Agent tr task_content) (EAgentRun task_content))
        (fun e => print (u "Agent実行中にエラーが発生しました: " +++ exc_str e)) ;;
      ret Continue
  else if eqb choice (u "2") then
    line <- input (u "知りたいこと（空なら「今の画面はどうなっている？」）>> ") ;;
    let user_query := strip line in
    let user_query :=
      if negb (truthy user_query) then u "今の画面はどうなっている？"
      else user_query in
    print (newline +++ u ">>> 状況を要約します...") ;;
    try_except
      (summary <- summarize_page_state_from_session user_query browser llm ;;
       print (newline +++ mul (u "-") 30) ;;
       print (u "現在の画面の状況要約:") ;;
       print (mul (u "-") 30) ;;
       print summary)
      (fun e =>
         print (u "要約中にエラーが発生しました: " +++ exc_str e) ;;
         print summarize_error_hint) ;;
    ret Continue
  else ret Continue.

(** Lines 100-113: the [finally] block. *)
Definition shutdown : M unit :=
  print (u "ブラウザを閉じています...") ;;
  try_except
    (match kill browser with
     | Some kill => call kill EKill
     | None =>
         match stop browser with
         | Some stop => call stop EStop
         | None => print (u "※ 終了メソッドが見つかりませんでした。")
         end
     end ;;
     print (u "システムを正常に終了しました。"))
    (fun e => print (u "ブラウザの終了中にエラーが発生しました: " +++ exc_str e)).

(** [while True: body].  Every pass reads at least one line of standard
    input or ends the loop, so [fuel] above the number of lines left is
    never used up (see [while_True_enough_fuel]). *)
Fixpoint while_True (fuel : nat) (body : M ctl) (w : World)
  : option (outcome unit * World) :=
  match fuel with
  | O => None
  | S fuel' =>
      match body w with
      | (Ret Continue, w') => while_True fuel' body w'
      | (Ret Break, w') => Some (Ret tt, w')
      | (Raise e, w') => Some (Raise e, w')
      end
  end.

(** Lines 37-40: lift the window geometry the library fixed. *)
Definition unset_window_geometry : M unit :=
  fun w =>
    (Ret tt,
     mkWorld (trace w) (stdin w)
       (match profile w with
        | Some p =>
            Some (mkProfile (headless p) (no_viewport p) (keep_alive p) None None)
        | None => None
        end)).

(** Lines 43-113: the loop under its [finally]. *)
Definition session (fuel : nat) (w : World) : option (outcome unit * World) :=
  match while_True fuel loop_body w with
  | Some r => Some (finally_ r shutdown)
  | None => None
  end.

End SessionLoop.

(** Lines 9-40 of [main]: credential check, banner, model client and browser
    handle.  [getenv] is what [os.getenv('GOOGLE_API_KEY')] gives after
    [load_dotenv()]; [ChatGoogle], [Browser] and [BrowserProfile_] are the
    library's constructors. *)
Definition startup
    (getenv : option pystr)
    (ChatGoogle : pystr -> pystr -> BaseChatModel)
    (Browser : BrowserProfile -> BrowserSession)
    (BrowserProfile_ : bool -> bool -> bool -> BrowserProfile)
  : M (BaseChatModel * BrowserSession) :=
  api_key <-
    match getenv with
    | Some api_key =>
        if negb (truthy api_key)
        then raise (ValueError (u "GOOGLE_API_KEY is not set"))
        else ret api_key
    | None => raise (ValueError (u "GOOGLE_API_KEY is not set"))
    end ;;
  print (mul (u "-") 30) ;;
  print (u "browser-use エージェントシステムを起動します") ;;
  print (mul (u "-") 30) ;;
  let llm := ChatGoogle (u "gemini-2.5-flash") api_key in
  let browser := Browser (BrowserProfile_ false true true) in
  (fun w => (Ret tt, mkWorld (trace w) (stdin w) (browser_profile browser))) ;;
  unset_window_geometry ;;
  ret (llm, browser).

(** [main], lines 8-113, run on the lines standard input holds.  [Agent] is
    the library's agent class bound to the shared model client and handle. *)
Definition main
    (getenv : option pystr)
    (ChatGoogle : pystr -> pystr -> BaseChatModel)
    (Browser : BrowserProfile -> BrowserSession)
    (BrowserProfile_ : bool -> bool -> bool -> BrowserProfile)
    (Agent : BaseChatModel -> BrowserSession -> AgentLib)
    (lines : list pystr)
  : option (outcome unit * World) :=
  match startup getenv ChatGoogle Browser BrowserProfile_ (mkWorld [] lines None) with
  | (Raise e, w) => Some (Raise e, w)
  | (Ret (llm, browser), w) =>
      session llm browser (Agent llm browser) (S (length lines)) w
  end.

(* ===================================================================== *)
(** ** Reading a trace *)
(* ===================================================================== *)

(** The message lists handed to [llm.ainvoke]. *)
Definition sent_messages (tr : list event) : list (list Message) :=
  flat_map (fun e => match e with EInvoke m _ => [m] | _ => [] end) tr.

(** The page states [get_browser_state_summary] returned. *)
Definition fetched_states (tr : list event) : list BrowserStateSummary :=
  flat_map (fun e => match e with EGetState (Ret s) => [s] | _ => [] end) tr.

(** The exceptions raised by the steps of a summarization: page-state fetch,
    UI list rendering, model invocation. *)
Definition step_failures (tr : list event) : list PyExc :=
  flat_map (fun e =>
              match e with
              | EGetState (Raise x) => [x]
              | ELlmRepresentation (Raise x) => [x]
              | EInvoke _ (Raise x) => [x]
              | _ => []
              end) tr.

(** Termination operations invoked on the browser handle. *)
Definition is_termination (e : event) : bool :=
  match e with EKill _ | EStop _ => true | _ => false end.

Definition terminations (tr : list event) : list event := filter is_termination tr.

Definition is_image_part (p : ContentPart) : bool :=
  match p with ContentPartImageParam _ => true | ContentPartTextParam _ => false end.

Definition is_text_part (p : ContentPart) : bool :=
  match p with ContentPartTextParam _ => true | ContentPartImageParam _ => false end.

(** The events [print_menu] and the menu prompt leave behind. *)
Definition menu_events (line : outcome pystr) : list event :=
  [EPrint (newline +++ mul (u "=") 40);
   EPrint (u "[メニュー]");
   EPrint (u "1: タスク実行 (Agent)");
   EPrint (u "2: 状況要約 (Summarizer)");
   EPrint (u "q: 終了");
   EPrint (mul (u "=") 40);
   EInput (u "選択してください >> ") line].

(* ===================================================================== *)
(** ** The paths through [summarize] *)
(* ===================================================================== *)

(** The pieces of [summarize], named so that its runs can be written down. *)
Definition log_1 : event := ELog INFO (u "🔍 [1/4] 画面の状況要約を開始します...").
Definition log_2 : event := ELog INFO (u "🔍 [2/4] UIリストのテキスト化を実行中...").
Definition log_3 : event := ELog INFO (u "🔍 [3/4] LLMプロンプトを構築中...").
Definition log_4 : event := ELog INFO (u "🔍 [4/4] LLMへリクエストを送信中...").
Definition log_done : event := ELog INFO (u "✅ 状況要約が完了しました").

(** Lines 40-43: the UI element list as text, and the call it takes. *)
Definition render_ui (state : BrowserStateSummary) : outcome pystr :=
  match dom_state state with
  | Some dom =>
      match llm_representation dom with
      | Some method => method
      | None => Ret fallback_ui_text
      end
  | None => Ret fallback_ui_text
  end.

Definition render_events (state : BrowserStateSummary) : list event :=
  match dom_state state with
  | Some dom =>
      match llm_representation dom with
      | Some method => [ELlmRepresentation method]
      | None => []
      end
  | None => []
  end.

(** Lines 64-84: the content list, and the warning when it has no image. *)
Definition content_list_of (state : BrowserStateSummary) (ui : pystr)
  : list ContentPart :=
  ContentPartTextParam (user_text ui)
  :: match screenshot state with
     | Some shot => if truthy shot then [screenshot_part shot] else []
     | None => []
     end.

Definition warn_events (state : BrowserStateSummary) : list event :=
  if screenshot_truthy state then [] else [ELog WARNING no_screenshot_warning].

(** Lines 87-90. *)
Definition messages_of (self : SituationSummarizer)
    (state : BrowserStateSummary) (ui : pystr) : list Message :=
  [SystemMessage (system_prompt (query_instruction (user_query self)));
   UserMessage (content_list_of state ui)].

(** Lines 98-100. *)
Definition reply_text (response : Response) : pystr :=
  let content :=
    match completion response with
    | Some v => v
    | None => PyStr (response_str response)
    end in
  py_str (if isinstance_str content then content else PyStr (py_str content)).

(** Lines 110-112: what the handler adds for an exception leaving the
    [try] block. *)
Definition error_log (e : PyExc) : list event :=
  if exc_is_Exception e
  then [ELog ERROR (fatal_error_prefix +++ exc_traceback e)]
  else [].

(** Everything up to the model call, for a fetched state and its UI text. *)
Definition before_invoke (state : BrowserStateSummary) : list event :=
  [log_1; EGetState (Ret state); log_2] ++ render_events state
  ++ [log_3] ++ warn_events state ++ [log_4].

(** The four ways a call of [summarize] can go after the trace [tr]: the
    result, and the events it adds. *)
Inductive summarize_path (self : SituationSummarizer) (tr : list event)
  : outcome SituationSummary -> list event -> Prop :=
| path_fetch_raises (e : PyExc) :
    get_browser_state_summary (browser_context self) (tr ++ [log_1]) = Raise e ->
    summarize_path self tr (Raise e)
      ([log_1; EGetState (Raise e)] ++ error_log e)
| path_render_raises (state : BrowserStateSummary) (e : PyExc) :
    get_browser_state_summary (browser_context self) (tr ++ [log_1]) = Ret state ->
    render_ui state = Raise e ->
    summarize_path self tr (Raise e)
      ([log_1; EGetState (Ret state); log_2] ++ render_events state
       ++ error_log e)
| path_invoke_raises (state : BrowserStateSummary) (ui : pystr) (e : PyExc) :
    get_browser_state_summary (browser_context self) (tr ++ [log_1]) = Ret state ->
    render_ui state = Ret ui ->
    ainvoke (llm self) (tr ++ before_invoke state) (messages_of self state ui)
      = Raise e ->
    summarize_path self tr (Raise e)
      (before_invoke state
       ++ [EInvoke (messages_of self state ui) (Raise e)] ++ error_log e)
| path_returns (state : BrowserStateSummary) (ui : pystr) (response : Response) :
    get_browser_state_summary (browser_context self) (tr ++ [log_1]) = Ret state ->
    render_ui state = Ret ui ->
    ainvoke (llm self) (tr ++ before_invoke state) (messages_of self state ui)
      = Ret response ->
    summarize_path self tr
      (Ret (mkSituationSummary (reply_text response) placeholder placeholder))
      (before_invoke state
       ++ [EInvoke (messages_of self state ui) (Ret response); log_done]).

(* ===================================================================== *)
(** ** The passes through the loop body *)
(* ===================================================================== *)

Definition task_prompt : pystr := u "実行したいタスクを入力してください >> ".

Definition query_prompt : pystr :=
  u "知りたいこと（空なら「今の画面はどうなっている？」）>> ".

(** Lines 79-81: the query handed to the summarizer for an entered line. *)
Definition effective_query (line : pystr) : pystr :=
  if negb (truthy (strip line)) then default_query else strip line.

(** How a [try: ... except Exception] whose handler only prints leaves the
    loop body: on. *)
Definition absorbed (A : Type) (o : outcome A) : outcome ctl :=
  match o with
  | Ret _ => Ret Continue
  | Raise e => if exc_is_Exception e then Ret Continue else Raise e
  end.

(** Lines 74-75. *)
Definition agent_error_events (o : outcome unit) : list event :=
  match o with
  | Ret _ => []
  | Raise e =>
      if exc_is_Exception e
      then [EPrint (u "Agent実行中にエラーが発生しました: " +++ exc_str e)]
      else []
  end.

(** Lines 91-97. *)
Definition summary_events (r : outcome SituationSummary) : list event :=
  match r with
  | Ret s =>
      [EPrint (newline +++ mul (u "-") 30);
       EPrint (u "現在の画面の状況要約:");
       EPrint (mul (u "-") 30);
       EPrint (raw_response s)]
  | Raise e =>
      if exc_is_Exception e
      then [EPrint (u "要約中にエラーが発生しました: " +++ exc_str e);
            EPrint summarize_error_hint]
      else []
  end.

(** Events of option 1 up to the agent run, and of option 2 up to the call
    of the summarizer. *)
Definition task_events (line task : pystr) : list event :=
  menu_events (Ret line)
  ++ [EInput task_prompt (Ret task);
      EAgent task true;
      EPrint (newline +++ u ">>> Agentを実行します: " +++ task)].

Definition query_events (line query : pystr) : list event :=
  menu_events (Ret line)
  ++ [EInput query_prompt (Ret query);
      EPrint (newline +++ u ">>> 状況を要約します...");
      ESummarize (effective_query query)].

(** The error records of the log. *)
Definition is_error_record (e : event) : bool :=
  match e with ELog ERROR _ => true | _ => false end.

(** The queries the summarizer was called with. *)
Definition summarize_calls (tr : list event) : list pystr :=
  flat_map (fun e => match e with ESummarize q => [q] | _ => [] end) tr.

(** The events [summarize] itself can add: log records and its three calls. *)
Definition is_summarizer_event (e : event) : bool :=
  match e with
  | ELog _ _ | EGetState _ | ELlmRepresentation _ | EInvoke _ _ => true
  | _ => false
  end.

(* ===================================================================== *)
(** ** The shutdown block *)
(* ===================================================================== *)

Definition closing_message : pystr := u "ブラウザを閉じています...".
Definition closed_message : pystr := u "システムを正常に終了しました。".
Definition no_method_message : pystr := u "※ 終了メソッドが見つかりませんでした。".
Definition shutdown_error_prefix : pystr :=
  u "ブラウザの終了中にエラーが発生しました: ".

(** Lines 104-109: the termination operation the handle is asked for after
    the trace [tr], with its outcome; [None] when it exposes neither. *)
Definition termination_call (browser : BrowserSession) (tr : list event)
  : option event :=
  match kill browser with
  | Some kill => Some (EKill (kill tr))
  | None =>
      match stop browser with
      | Some stop => Some (EStop (stop tr))
      | None => None
      end
  end.

Definition termination_outcome (ev : event) : outcome unit :=
  match ev with
  | EKill o | EStop o => o
  | _ => Ret tt
  end.

Definition shutdown_events (browser : BrowserSession) (tr : list event)
  : list event :=
  EPrint closing_message
  :: match termination_call browser (tr ++ [EPrint closing_message]) with
     | Some ev =>
         ev :: match termination_outcome ev with
               | Ret _ => [EPrint closed_message]
               | Raise e =>
                   if exc_is_Exception e
                   then [EPrint (shutdown_error_prefix +++ exc_str e)]
                   else []
               end
     | None => [EPrint no_method_message; EPrint closed_message]
     end.

Definition shutdown_result (browser : BrowserSession) (tr : list event)
  : outcome unit :=
  match termination_call browser (tr ++ [EPrint closing_message]) with
  | Some ev =>
      match termination_outcome ev with
      | Ret _ => Ret tt
      | Raise e => if exc_is_Exception e then Ret tt else Raise e
      end
  | None => Ret tt
  end.

(** A computation that only appends [evs] to the trace. *)
Definition appends (w : World) (evs : list event) : World :=
  mkWorld (trace w ++ evs) (stdin w) (profile w).

(* ===================================================================== *)
(** ** Startup *)
(* ===================================================================== *)

(** Lines 16-18: the banner. *)
Definition banner_events : list event :=
  [EPrint (mul (u "-") 30);
   EPrint (u "browser-use エージェントシステムを起動します");
   EPrint (mul (u "-") 30)].

Definition missing_key_error : PyExc :=
  ValueError (u "GOOGLE_API_KEY is not set").

(** The events that belong to the console: output lines and input prompts. *)
Definition is_console_event (e : event) : bool :=
  match e with
  | EPrint _ | EInput _ _ => true
  | _ => false
  end.

(* ===================================================================== *)
(** ** Concrete collaborators *)
(* ===================================================================== *)

(** Small stand-ins for the external objects, to run the model on. *)
Module Demo.

Definition RuntimeError : PyExc :=
  mkExc (u "RuntimeError") true (u "model unavailable")
    (u "Traceback (most recent call last): RuntimeError: model unavailable").

(** [asyncio.CancelledError] derives from [BaseException] only. *)
Definition CancelledError : PyExc :=
  mkExc (u "CancelledError") false []
    (u "Traceback (most recent call last): asyncio.exceptions.CancelledError").

Definition page : BrowserStateSummary :=
  mkState (Some (mkDom (Some (Ret (u "[12]<button>検索</button>")))))
          (Some (u "iVBORw0KGgo=")).

(** No renderable UI list, and an empty screenshot string. *)
Definition bare_page : BrowserStateSummary :=
  mkState (Some (mkDom None)) (Some []).

Definition browser_showing (state : BrowserStateSummary) : BrowserSession :=
  mkBrowser None (fun _ => Ret state) (Some (fun _ => Ret tt))
            (Some (fun _ => Ret tt)).

Definition browser : BrowserSession := browser_showing page.

(** A handle whose [kill] fails with [e]. *)
Definition browser_failing_kill (e : PyExc) : BrowserSession :=
  mkBrowser None (fun _ => Ret page) (Some (fun _ => Raise e)) None.

Definition llm_returning (response : Response) : BaseChatModel :=
  mkLlm (fun _ _ => Ret response).

Definition reply (text : pystr) : Response :=
  mkResponse (Some (PyStr text)) (u "<response>").

Definition llm_replying (text : pystr) : BaseChatModel :=
  llm_returning (reply text).

(** A response whose [completion] is not a string. *)
Definition odd_response : Response :=
  mkResponse (Some (PyObject (u "{'answer': 42}"))) (u "<response>").

Definition llm_raising (e : PyExc) : BaseChatModel :=
  mkLlm (fun _ _ => Raise e).

Definition llm : BaseChatModel := llm_replying (u "検索ページです。").

Definition Agent : AgentLib := mkAgentLib (fun _ _ => Ret tt).

Definition Agent_raising (e : PyExc) : AgentLib :=
  mkAgentLib (fun _ _ => Raise e).

(** A handle whose page-state fetch fails with [e]. *)
Definition browser_failing_fetch (e : PyExc) : BrowserSession :=
  mkBrowser None (fun _ => Raise e) (Some (fun _ => Ret tt)) None.

(** A handle that exposes neither [kill] nor [stop]. *)
Definition browser_without_methods : BrowserSession :=
  mkBrowser None (fun _ => Ret page) None None.

(** The library's constructors: the profile comes with a fixed window. *)
Definition BrowserProfile_ (headless no_viewport keep_alive : bool)
  : BrowserProfile :=
  mkProfile headless no_viewport keep_alive
    (Some (1280%N, 1100%N)) (Some (0%N, 0%N)).

Definition Browser (p : BrowserProfile) : BrowserSession :=
  mkBrowser (Some p) (fun _ => Ret page) (Some (fun _ => Ret tt))
            (Some (fun _ => Ret tt)).

Definition ChatGoogle (model api_key : pystr) : BaseChatModel := llm.

Definition Agent_ (llm : BaseChatModel) (browser : BrowserSession)
  : AgentLib := Agent.

Definition world (lines : list pystr) : World := mkWorld [] lines None.

Definition summarizer : SituationSummarizer :=
  mkSummarizer browser llm (u "検索するには？").

Definition bare_summarizer : SituationSummarizer :=
  mkSummarizer (browser_showing bare_page) llm [].

Definition failing_summarizer (e : PyExc) : SituationSummarizer :=
  mkSummarizer browser (llm_raising e) [].

End Demo.

(* ===================================================================== *)
(** ** Basic facts *)
(* ===================================================================== *)

Arguments u : simpl never.
Opaque u.
Arguments mul : simpl never.
Arguments strip : simpl never.
Arguments cat : simpl never.

Lemma skipn_length_app (A : Type) (l x : list A) : skipn (length l) (l ++ x) = x.
Proof. induction l as [|a l IH]; simpl; auto. Qed.

Lemma cat_assoc (a b c : pystr) : a +++ b +++ c = (a +++ b) +++ c.
Proof. unfold cat. apply app_assoc. Qed.

Lemma eqb_eq (a b : pystr) : eqb a b = true <-> a = b.
Proof.
  revert b; induction a as [|x a IH]; intros [|y b]; simpl; split;
    try congruence; try reflexivity.
  - intros H. apply andb_true_iff in H. destruct H as [H1 H2].
    apply N.eqb_eq in H1. apply IH in H2. congruence.
  - intros H. injection H as -> ->. rewrite N.eqb_refl. simpl. now apply IH.
Qed.

Lemma eqb_refl (a : pystr) : eqb a a = true.
Proof. now apply eqb_eq. Qed.

Lemma eqb_neq (a b : pystr) : eqb a b = false <-> a <> b.
Proof.
  split.
  - intros H E. apply eqb_eq in E. congruence.
  - intros H. destruct (eqb a b) eqn:E; auto. apply eqb_eq in E. contradiction.
Qed.

Lemma truthy_false (s : pystr) : truthy s = false <-> s = [].
Proof. destruct s; simpl; split; congruence. Qed.

(** Bring a trace built by successive [record]s into the form
    [trace w ++ [e1; ...; en]] and read off the new events. *)
Ltac norm_trace :=
  repeat rewrite <- app_assoc; simpl app; try rewrite skipn_length_app.

Ltac run_M :=
  unfold try_except, bind, logger, print, emit, call, ret, raise, record,
    new_events, result; simpl.

Ltac in_here :=
  lazymatch goal with |- In ?x (?y :: _) => constr_eq x y; apply in_eq end.

Ltac find_in := repeat first [in_here | apply in_cons].

Lemma new_events_appends (A : Type) (m : M A) (w : World) (r : outcome A)
    (evs : list event) :
  m w = (r, appends w evs) -> new_events m w = evs /\ result m w = r.
Proof.
  unfold new_events, result. intros ->. simpl. now rewrite skipn_length_app.
Qed.

(** Every call of [summarize] follows one of the four paths. *)
Lemma summarize_paths (self : SituationSummarizer) (w : World) :
  exists r evs,
    summarize self w = (r, appends w evs) /\ summarize_path self (trace w) r evs.
Proof.
  unfold summarize, appends. run_M. fold log_1 log_2 log_3 log_4 log_done.
  destruct (get_browser_state_summary _ _) as [state|e] eqn:Hget; simpl.
  2:{ exists (Raise e), ([log_1; EGetState (Raise e)] ++ error_log e).
      split; [|now constructor].
      unfold error_log. destruct (exc_is_Exception e); simpl; norm_trace;
        reflexivity. }
  destruct state as [dom shot].
  destruct dom as [[[[ui|e]|]]|]; simpl.
  2:{ eexists (Raise e), _. split.
      2:{ eapply path_render_raises; [exact Hget | reflexivity]. }
      unfold error_log. destruct (exc_is_Exception e); simpl; norm_trace;
        reflexivity. }
  all: destruct shot as [s|]; [destruct (truthy s) eqn:Hs|]; simpl.
  all: destruct (ainvoke _ _ _) as [resp|e'] eqn:Hinv; simpl.
  all: repeat rewrite <- app_assoc in Hinv; simpl in Hinv.
  all: eexists _, _; split;
    [| first [ eapply path_returns with (response := resp)
             | eapply path_invoke_raises with (e := e') ];
       [ exact Hget | reflexivity
       | unfold before_invoke, warn_events, screenshot_truthy, messages_of,
           content_list_of; simpl; try rewrite Hs; simpl; exact Hinv ] ].
  all: unfold before_invoke, warn_events, screenshot_truthy, error_log,
         messages_of, content_list_of, reply_text; simpl;
       try rewrite Hs; simpl; try destruct (exc_is_Exception e'); simpl;
       norm_trace; reflexivity.
Qed.

(** The summarizer leaves standard input and the browser profile alone. *)
Lemma summarize_run (self : SituationSummarizer) (w : World) :
  exists r evs,
    summarize self w = (r, appends w evs) /\
    new_events (summarize self) w = evs /\
    result (summarize self) w = r /\
    summarize_path self (trace w) r evs.
Proof.
  destruct (summarize_paths self w) as (r & evs & Hrun & Hpath).
  exists r, evs. destruct (new_events_appends (summarize self) Hrun) as [H1 H2]. auto.
Qed.

(** *** Reading the events of a path *)

Lemma sent_messages_app (a b : list event) :
  sent_messages (a ++ b) = sent_messages a ++ sent_messages b.
Proof. apply flat_map_app. Qed.

Lemma fetched_states_app (a b : list event) :
  fetched_states (a ++ b) = fetched_states a ++ fetched_states b.
Proof. apply flat_map_app. Qed.

Lemma step_failures_app (a b : list event) :
  step_failures (a ++ b) = step_failures a ++ step_failures b.
Proof. apply flat_map_app. Qed.

Lemma terminations_app (a b : list event) :
  terminations (a ++ b) = terminations a ++ terminations b.
Proof. apply filter_app. Qed.

Lemma error_log_cases (e : PyExc) :
  (exc_is_Exception e = true /\
   error_log e = [ELog ERROR (fatal_error_prefix +++ exc_traceback e)]) \/
  (exc_is_Exception e = false /\ error_log e = []).
Proof. unfold error_log. destruct (exc_is_Exception e); auto. Qed.

Lemma error_log_quiet (e : PyExc) :
  sent_messages (error_log e) = [] /\ fetched_states (error_log e) = [] /\
  step_failures (error_log e) = [] /\ terminations (error_log e) = [].
Proof. unfold error_log. destruct (exc_is_Exception e); simpl; auto. Qed.

Lemma render_events_quiet (state : BrowserStateSummary) :
  sent_messages (render_events state) = [] /\
  fetched_states (render_events state) = [] /\
  terminations (render_events state) = [].
Proof.
  unfold render_events.
  destruct (dom_state state) as [[[m|]]|]; simpl; auto.
Qed.

Lemma render_events_failures (state : BrowserStateSummary) :
  step_failures (render_events state) =
  match render_ui state with Raise e => [e] | Ret _ => [] end.
Proof.
  unfold render_events, render_ui.
  destruct (dom_state state) as [[[[ui|e]|]]|]; reflexivity.
Qed.

Lemma warn_events_quiet (state : BrowserStateSummary) :
  sent_messages (warn_events state) = [] /\
  fetched_states (warn_events state) = [] /\
  step_failures (warn_events state) = [] /\
  terminations (warn_events state) = [].
Proof. unfold warn_events. destruct (screenshot_truthy state); simpl; auto. Qed.

Lemma before_invoke_sent (state : BrowserStateSummary) :
  sent_messages (before_invoke state) = [].
Proof.
  unfold before_invoke. rewrite !sent_messages_app.
  destruct (render_events_quiet state) as (-> & _).
  destruct (warn_events_quiet state) as (-> & _). reflexivity.
Qed.

Lemma before_invoke_fetched (state : BrowserStateSummary) :
  fetched_states (before_invoke state) = [state].
Proof.
  unfold before_invoke. rewrite !fetched_states_app.
  destruct (render_events_quiet state) as (_ & -> & _).
  destruct (warn_events_quiet state) as (_ & -> & _). reflexivity.
Qed.

Lemma before_invoke_failures (state : BrowserStateSummary) (ui : pystr) :
  render_ui state = Ret ui -> step_failures (before_invoke state) = [].
Proof.
  intros H. unfold before_invoke. rewrite !step_failures_app.
  rewrite render_events_failures, H.
  destruct (warn_events_quiet state) as (_ & _ & -> & _). reflexivity.
Qed.

Lemma before_invoke_terminations (state : BrowserStateSummary) :
  terminations (before_invoke state) = [].
Proof.
  unfold before_invoke. rewrite !terminations_app.
  destruct (render_events_quiet state) as (_ & _ & ->).
  destruct (warn_events_quiet state) as (_ & _ & _ & ->). reflexivity.
Qed.

Lemma in_sent_messages (tr : list event) (m : list Message) :
  In m (sent_messages tr) <-> exists r, In (EInvoke m r) tr.
Proof.
  unfold sent_messages. rewrite in_flat_map. split.
  - intros ([] & Hin & Hm); simpl in Hm; try contradiction.
    destruct Hm as [<-|[]]. eauto.
  - intros (r & Hin). exists (EInvoke m r). simpl. auto.
Qed.

Lemma in_fetched_states (tr : list event) (state : BrowserStateSummary) :
  In state (fetched_states tr) <-> In (EGetState (Ret state)) tr.
Proof.
  unfold fetched_states. rewrite in_flat_map. split.
  - intros ([] & Hin & Hm); simpl in Hm; try contradiction.
    destruct r; simpl in Hm; try contradiction.
    destruct Hm as [<-|[]]. exact Hin.
  - intros Hin. exists (EGetState (Ret state)). simpl. auto.
Qed.

(** The events of a path: which messages were sent, which state was fetched,
    which step failed. *)
Lemma path_sent (self : SituationSummarizer) (tr : list event)
    (r : outcome SituationSummary) (evs : list event) :
  summarize_path self tr r evs ->
  sent_messages evs = [] \/
  exists state ui,
    fetched_states evs = [state] /\ render_ui state = Ret ui /\
    sent_messages evs = [messages_of self state ui] /\
    incl (warn_events state) evs.
Proof.
  intros [e H|state e H1 H2|state ui e H1 H2 H3|state ui resp H1 H2 H3].
  - left. rewrite sent_messages_app.
    destruct (error_log_quiet e) as (-> & _). reflexivity.
  - left. rewrite !sent_messages_app.
    destruct (error_log_quiet e) as (-> & _).
    destruct (render_events_quiet state) as (-> & _). reflexivity.
  - right. exists state, ui.
    rewrite !sent_messages_app, !fetched_states_app.
    rewrite before_invoke_sent, before_invoke_fetched.
    destruct (error_log_quiet e) as (-> & -> & _).
    split; [reflexivity|]. split; [exact H2|]. split; [reflexivity|].
    unfold before_invoke. intros x Hx. rewrite !in_app_iff. auto 10.
  - right. exists state, ui.
    rewrite !sent_messages_app, !fetched_states_app.
    rewrite before_invoke_sent, before_invoke_fetched.
    split; [reflexivity|]. split; [exact H2|]. split; [reflexivity|].
    unfold before_invoke. intros x Hx. rewrite !in_app_iff. auto 10.
Qed.

Lemma path_fetched (self : SituationSummarizer) (tr : list event)
    (r : outcome SituationSummary) (evs : list event)
    (state : BrowserStateSummary) :
  summarize_path self tr r evs ->
  In (EGetState (Ret state)) evs ->
  (exists e, render_ui state = Raise e /\ r = Raise e /\ sent_messages evs = [])
  \/
  (exists ui o,
     render_ui state = Ret ui /\
     evs = before_invoke state ++ EInvoke (messages_of self state ui) o
             :: match o with
                | Ret _ => [log_done]
                | Raise e => error_log e
                end).
Proof.
  intros Hpath Hin. apply in_fetched_states in Hin.
  destruct Hpath as [e H|st e H1 H2|st ui e H1 H2 H3|st ui resp H1 H2 H3].
  - rewrite fetched_states_app in Hin.
    destruct (error_log_quiet e) as (_ & E & _). rewrite E in Hin.
    simpl in Hin. contradiction.
  - rewrite !fetched_states_app in Hin.
    destruct (error_log_quiet e) as (S1 & E & _). rewrite E in Hin.
    destruct (render_events_quiet st) as (S2 & E' & _). rewrite E' in Hin.
    simpl in Hin. destruct Hin as [<-|[]]. left. exists e.
    rewrite !sent_messages_app, S1, S2. auto.
  - rewrite !fetched_states_app, before_invoke_fetched in Hin.
    destruct (error_log_quiet e) as (_ & E & _). rewrite E in Hin.
    simpl in Hin. destruct Hin as [<-|[]]. right. exists ui, (Raise e). auto.
  - rewrite !fetched_states_app, before_invoke_fetched in Hin.
    simpl in Hin. destruct Hin as [<-|[]]. right. exists ui, (Ret resp). auto.
Qed.

(** A call that returns went down the last path. *)
Lemma summarize_returns (self : SituationSummarizer) (w : World)
    (s : SituationSummary) :
  result (summarize self) w = Ret s ->
  exists state ui response,
    render_ui state = Ret ui /\
    ainvoke (llm self) (trace w ++ before_invoke state)
      (messages_of self state ui) = Ret response /\
    s = mkSituationSummary (reply_text response) placeholder placeholder /\
    new_events (summarize self) w =
      before_invoke state
      ++ [EInvoke (messages_of self state ui) (Ret response); log_done].
Proof.
  intros Hres.
  destruct (summarize_run self w) as (r & evs & _ & Hnew & Hr & Hpath).
  rewrite Hnew. rewrite Hr in Hres. subst r.
  inversion Hpath as [| | |state ui resp H1 H2 H3 E1 E2]; subst.
  exists state, ui, resp. auto.
Qed.

Lemma sent_messages_invoked (state : BrowserStateSummary)
    (m : list Message) (o : outcome Response) :
  sent_messages
    (before_invoke state
     ++ EInvoke m o
        :: match o with
           | Ret _ => [log_done]
           | Raise e => error_log e
           end) = [m].
Proof.
  rewrite sent_messages_app, before_invoke_sent. simpl.
  destruct o as [resp|e]; [reflexivity|].
  destruct (error_log_quiet e) as (-> & _). reflexivity.
Qed.

(** Membership in a short explicit list, settled by constructors alone. *)
Ltac in_inv H :=
  simpl in H;
  repeat (destruct H as [H|H]; [try discriminate H|]);
  try contradiction.

Lemma no_render_call (state : BrowserStateSummary) (m : list Message)
    (o : outcome Response) (r : outcome pystr) :
  render_events state = [] ->
  ~ In (ELlmRepresentation r)
      (before_invoke state
       ++ EInvoke m o
          :: match o with
             | Ret _ => [log_done]
             | Raise e => error_log e
             end).
Proof.
  intros Hr Hin. unfold before_invoke in Hin. rewrite Hr in Hin.
  unfold warn_events, log_1, log_2, log_3, log_4, log_done, error_log in Hin.
  destruct (screenshot_truthy state); destruct o as [resp|e];
    try destruct (exc_is_Exception e); in_inv Hin.
Qed.

(* ===================================================================== *)
(** ** The summarizer *)
(* ===================================================================== *)

(** C1.  Whatever a call of [summarize] hands to the model client is one
    system message followed by one user message; the user message holds one
    text part followed by one image part (the PNG data URL of the screenshot)
    when the fetched page state has a (non-empty) screenshot, and the text
    part alone, with the warning logged, when it has not; so it holds at
    most one image part.  A call makes at most this one request. *)
Theorem summarize_request_shape (self : SituationSummarizer) (w : World)
    (messages : list Message) :
  In messages (sent_messages (new_events (summarize self) w)) ->
  sent_messages (new_events (summarize self) w) = [messages] /\
  exists state sys content,
    fetched_states (new_events (summarize self) w) = [state] /\
    messages = [SystemMessage sys; UserMessage content] /\
    (if screenshot_truthy state
     then exists text shot,
            screenshot state = Some shot /\
            content = [ContentPartTextParam text;
                       ContentPartImageParam
                         (mkImageURL (u "data:image/png;base64," +++ shot)
                                     (u "image/png"))] /\
            ~ In (ELog WARNING (u "⚠️ スクリーンショットが取得できませんでした。"))
                 (new_events (summarize self) w)
     else (exists text, content = [ContentPartTextParam text]) /\
          In (ELog WARNING (u "⚠️ スクリーンショットが取得できませんでした。"))
             (new_events (summarize self) w)) /\
    length (filter is_image_part content) <= 1.
Proof.
  intros Hin.
  destruct (summarize_run self w) as (r & evs & _ & Hnew & _ & Hpath).
  rewrite Hnew in *.
  change (u "⚠️ スクリーンショットが取得できませんでした。") with no_screenshot_warning.
  destruct (path_sent Hpath) as [H0|(state & ui & Hf & Hr & Hs & Hw)].
  - rewrite H0 in Hin. contradiction.
  - rewrite Hs in *. simpl in Hin.
    destruct Hin as [Hin|Hin]; [subst messages|contradiction].
    split; [reflexivity|].
    exists state, (system_prompt (query_instruction (user_query self))),
      (content_list_of state ui).
    split; [exact Hf|]. split; [reflexivity|].
    assert (Hnw : screenshot_truthy state = true ->
                  ~ In (ELog WARNING no_screenshot_warning) evs).
    { intros Ht Hin.
      assert (Hfe : In (EGetState (Ret state)) evs).
      { apply in_fetched_states. rewrite Hf. apply in_eq. }
      destruct (path_fetched state Hpath Hfe)
        as [(e & _ & _ & H0)|(ui' & o & _ & ->)].
      { rewrite H0 in Hs. discriminate Hs. }
      unfold before_invoke, warn_events, render_events, log_1, log_2, log_3,
        log_4, log_done, error_log in Hin.
      rewrite Ht in Hin.
      destruct (dom_state state) as [[[m|]]|]; destruct o as [resp|e];
        try destruct (exc_is_Exception e); in_inv Hin. }
    revert Hw Hnw.
    unfold content_list_of, warn_events, screenshot_truthy, screenshot_part.
    destruct (screenshot state) as [shot|]; [destruct (truthy shot)|]; simpl;
      intros Hw Hnw.
    + split; [|lia]. exists (user_text ui), shot. auto.
    + split; [|lia]. split; [eauto|]. apply Hw. apply in_eq.
    + split; [|lia]. split; [eauto|]. apply Hw. apply in_eq.
Qed.


(** C4.  The reply text placed in [raw_response] is the response's
    [completion] when it has one, and [str(response)] otherwise, in both
    cases as a string: a [completion] that is a string is taken as it is,
    anything else goes through [str]. *)
Theorem raw_response_from_completion (self : SituationSummarizer) (w : World)
    (s : SituationSummary) (messages : list Message) (response : Response) :
  result (summarize self) w = Ret s ->
  In (EInvoke messages (Ret response)) (new_events (summarize self) w) ->
  raw_response s =
    match completion response with
    | Some v => py_str v
    | None => response_str response
    end /\
  (forall text, completion response = Some (PyStr text) ->
                raw_response s = text).
Proof.
  intros Hres Hin.
  destruct (summarize_returns self w Hres)
    as (state & ui & resp & _ & _ & -> & Hnew).
  rewrite Hnew in Hin. apply in_app_or in Hin. destruct Hin as [Hin|Hin].
  - assert (Hs : In messages (sent_messages (before_invoke state))).
    { apply in_sent_messages. eauto. }
    rewrite before_invoke_sent in Hs. contradiction.
  - unfold log_done in Hin. in_inv Hin. injection Hin as _ <-.
    simpl. unfold reply_text.
    destruct (completion resp) as [[text|str_of]|]; simpl.
    + split; [reflexivity|]. intros t Ht. now injection Ht.
    + split; [reflexivity|]. intros t Ht. discriminate Ht.
    + split; [reflexivity|]. intros t Ht. discriminate Ht.
Qed.

(** C5.  When the fetched page state has no [dom_state], or one without the
    textualization method, [summarize] does not fail at that step: the method
    is not called, the model is invoked, and the text part sent embeds the
    fixed fallback placeholder, [UI要素リストを取得できませんでした。], where the
    UI element list would be. *)
Theorem fallback_when_ui_list_unavailable (self : SituationSummarizer)
    (w : World) (state : BrowserStateSummary) :
  In (EGetState (Ret state)) (new_events (summarize self) w) ->
  (dom_state state = None \/
   exists dom, dom_state state = Some dom /\ llm_representation dom = None) ->
  (forall r, ~ In (ELlmRepresentation r) (new_events (summarize self) w)) /\
  (exists sys rest o,
      sent_messages (new_events (summarize self) w) =
        [[SystemMessage sys;
          UserMessage (ContentPartTextParam (user_text fallback_ui_text) :: rest)]]
      /\ In (EInvoke [SystemMessage sys;
                      UserMessage (ContentPartTextParam
                                     (user_text fallback_ui_text) :: rest)] o)
            (new_events (summarize self) w)) /\
  fallback_ui_text = u "UI要素リストを取得できませんでした。" /\
  user_text fallback_ui_text
    = u "以下のUI要素リストと添付のスクリーンショットをもとに、画面状況を要約してください。"
      +++ newline +++ newline +++ u "## UI要素リスト" +++ newline
      +++ u "UI要素リストを取得できませんでした。".
Proof.
  intros Hin Hdom.
  destruct (summarize_run self w) as (r & evs & _ & Hnew & _ & Hpath).
  rewrite Hnew in *.
  assert (Hui : render_ui state = Ret fallback_ui_text /\
                render_events state = []).
  { unfold render_ui, render_events.
    destruct Hdom as [->|(dom & -> & ->)]; auto. }
  destruct Hui as [Hui Hev].
  destruct (path_fetched state Hpath Hin) as [(e & Hr & _)|(ui & o & Hr & ->)].
  { rewrite Hui in Hr. discriminate Hr. }
  rewrite Hui in Hr. injection Hr as <-.
  split; [|split; [|split]].
  - intros r0. now apply no_render_call.
  - eexists _, _, o. rewrite sent_messages_invoked. split.
    + unfold messages_of, content_list_of. reflexivity.
    + apply in_or_app. right. apply in_eq.
  - reflexivity.
  - reflexivity.
Qed.

(** C9.  A page state whose [screenshot] is the empty string is treated as
    one without screenshot: the request is the one built for the same state
    with [screenshot] absent, its user message holds the text part only, and
    the warning is logged.  The image part depends on the truth value of the
    field, not on its presence. *)
Theorem empty_screenshot_counts_as_absent (self : SituationSummarizer)
    (w : World) (state : BrowserStateSummary) :
  In (EGetState (Ret state)) (new_events (summarize self) w) ->
  screenshot state = Some [] \/ screenshot state = None ->
  forall messages o,
    In (EInvoke messages o) (new_events (summarize self) w) ->
    (exists ui,
        messages = messages_of self (mkState (dom_state state) None) ui /\
        messages = [SystemMessage
                      (system_prompt (query_instruction (user_query self)));
                    UserMessage [ContentPartTextParam (user_text ui)]]) /\
    In (ELog WARNING no_screenshot_warning) (new_events (summarize self) w).
Proof.
  intros Hin Hshot messages o Hinv.
  destruct (summarize_run self w) as (r & evs & _ & Hnew & _ & Hpath).
  rewrite Hnew in *.
  assert (Hs : In messages (sent_messages evs)).
  { apply in_sent_messages. eauto. }
  destruct (path_fetched state Hpath Hin) as [(e & _ & _ & H0)|(ui & o' & Hr & ->)].
  { rewrite H0 in Hs. contradiction. }
  rewrite sent_messages_invoked in Hs. simpl in Hs.
  destruct Hs as [Hs|Hs]; [subst messages|contradiction].
  split.
  - exists ui. unfold messages_of, content_list_of.
    destruct Hshot as [->| ->]; simpl; auto.
  - apply in_or_app. left. unfold before_invoke.
    rewrite !in_app_iff. right. right. right. left.
    unfold warn_events, screenshot_truthy.
    destruct Hshot as [->| ->]; apply in_eq.
Qed.

(* ===================================================================== *)
(** ** The session loop *)
(* ===================================================================== *)

Lemma choices_differ :
  eqb (u "1") (u "q") = false /\ eqb (u "2") (u "q") = false /\
  eqb (u "2") (u "1") = false.
Proof. repeat split; vm_compute; reflexivity. Qed.

Lemma effective_query_eq (line : pystr) :
  (if negb (truthy (strip line)) then u "今の画面はどうなっている？"
   else strip line) = effective_query line.
Proof. reflexivity. Qed.

Section LoopBody.

Variable llm : BaseChatModel.
Variable browser : BrowserSession.
Variable Agent : AgentLib.

Let body := loop_body llm browser Agent.

(** End of input at the menu prompt. *)
Lemma loop_body_eof (w : World) :
  stdin w = [] ->
  body w = (Raise EOFError, appends w (menu_events (Raise EOFError))).
Proof.
  destruct w as [tr lines prof]. simpl. intros ->.
  unfold body, loop_body, print_menu, input. run_M.
  unfold appends, menu_events. simpl. norm_trace. reflexivity.
Qed.

(** [q]. *)
Lemma loop_body_quit (w : World) (line : pystr) (rest : list pystr) :
  stdin w = line :: rest ->
  strip line = u "q" ->
  body w = (Ret Break,
            mkWorld (trace w ++ menu_events (Ret line)
                     ++ [EPrint (u "終了します。")])
              rest (profile w)).
Proof.
  destruct w as [tr lines prof]. simpl. intros -> Hc.
  unfold body, loop_body, print_menu, input. run_M.
  rewrite Hc, eqb_refl. simpl.
  unfold menu_events. norm_trace. reflexivity.
Qed.

(** Anything but [q], [1], [2]. *)
Lemma loop_body_other (w : World) (line : pystr) (rest : list pystr) :
  stdin w = line :: rest ->
  strip line <> u "q" -> strip line <> u "1" -> strip line <> u "2" ->
  body w = (Ret Continue,
            mkWorld (trace w ++ menu_events (Ret line)) rest (profile w)).
Proof.
  destruct w as [tr lines prof]. simpl. intros -> Hq H1 H2.
  apply eqb_neq in Hq, H1, H2.
  unfold body, loop_body, print_menu, input. run_M.
  rewrite Hq, H1, H2. simpl.
  unfold menu_events. norm_trace. reflexivity.
Qed.

(** [1], then end of input or an empty task. *)
Lemma loop_body_task_eof (w : World) (line : pystr) :
  stdin w = [line] ->
  strip line = u "1" ->
  body w = (Raise EOFError,
            mkWorld (trace w ++ menu_events (Ret line)
                     ++ [EInput task_prompt (Raise EOFError)])
              [] (profile w)).
Proof.
  destruct w as [tr lines prof]. simpl. intros -> Hc.
  destruct choices_differ as (E1 & _).
  unfold body, loop_body, print_menu, input. run_M.
  rewrite Hc, E1, eqb_refl. simpl.
  unfold menu_events, task_prompt. norm_trace. reflexivity.
Qed.

Lemma loop_body_task_empty (w : World) (line : pystr) (rest : list pystr) :
  stdin w = line :: [] :: rest ->
  strip line = u "1" ->
  body w = (Ret Continue,
            mkWorld (trace w ++ menu_events (Ret line)
                     ++ [EInput task_prompt (Ret [])])
              rest (profile w)).
Proof.
  destruct w as [tr lines prof]. simpl. intros -> Hc.
  destruct choices_differ as (E1 & _).
  unfold body, loop_body, print_menu, input. run_M.
  rewrite Hc, E1, eqb_refl. simpl.
  unfold menu_events, task_prompt. norm_trace. reflexivity.
Qed.

(** [1] and a task. *)
Lemma loop_body_task (w : World) (line task : pystr) (rest : list pystr) :
  stdin w = line :: task :: rest ->
  strip line = u "1" ->
  task <> [] ->
  let o := agent_run Agent (trace w ++ task_events line task) task in
  body w = (absorbed o,
            mkWorld (trace w ++ task_events line task
                     ++ EAgentRun task o :: agent_error_events o)
              rest (profile w)).
Proof.
  destruct w as [tr lines prof]. simpl. intros -> Hc Ht.
  destruct choices_differ as (E1 & _).
  destruct task as [|c task]; [congruence|].
  unfold body, loop_body, print_menu, input. run_M.
  rewrite Hc, E1, eqb_refl. simpl.
  unfold task_events, menu_events, task_prompt. norm_trace.
  destruct (agent_run Agent _ _) as [[]|e]; simpl.
  - norm_trace. reflexivity.
  - destruct (exc_is_Exception e); simpl; norm_trace; reflexivity.
Qed.

(** [2], then end of input. *)
Lemma loop_body_query_eof (w : World) (line : pystr) :
  stdin w = [line] ->
  strip line = u "2" ->
  body w = (Raise EOFError,
            mkWorld (trace w ++ menu_events (Ret line)
                     ++ [EInput query_prompt (Raise EOFError)])
              [] (profile w)).
Proof.
  destruct w as [tr lines prof]. simpl. intros -> Hc.
  destruct choices_differ as (_ & E1 & E2).
  unfold body, loop_body, print_menu, input. run_M.
  rewrite Hc, E1, E2, eqb_refl. simpl.
  unfold menu_events, query_prompt. norm_trace. reflexivity.
Qed.

(** [2] and a query: the summarizer runs on the effective query, and the
    handler absorbs what it raises. *)
Lemma loop_body_query (w : World) (line query : pystr) (rest : list pystr) :
  stdin w = line :: query :: rest ->
  strip line = u "2" ->
  exists r evs,
    summarize_path (mkSummarizer browser llm (effective_query query))
      (trace w ++ query_events line query) r evs /\
    body w = (absorbed r,
              mkWorld (trace w ++ query_events line query
                       ++ evs ++ summary_events r)
                rest (profile w)).
Proof.
  destruct w as [tr lines prof]. simpl. intros -> Hc.
  destruct choices_differ as (_ & E1 & E2).
  unfold body, loop_body, print_menu, input, summarize_page_state_from_session.
  run_M. rewrite Hc, E1, E2, eqb_refl. simpl.
  rewrite effective_query_eq.
  match goal with
  | |- context [summarize ?self ?w0] =>
      destruct (summarize_run self w0) as (r & evs & Hrun & _ & _ & Hpath);
      rewrite Hrun
  end.
  exists r, evs. simpl in Hpath. split.
  - unfold query_events, menu_events, query_prompt. norm_trace.
    repeat rewrite <- app_assoc in Hpath. simpl app in Hpath. exact Hpath.
  - unfold appends. simpl.
    unfold query_events, menu_events, query_prompt, summary_events.
    destruct r as [s|e]; simpl.
    + norm_trace. reflexivity.
    + destruct (exc_is_Exception e); simpl; norm_trace;
        rewrite ?app_nil_r; reflexivity.
Qed.

End LoopBody.

(** *** What a pass through the loop body leaves behind *)

Lemma filter_none (A : Type) (P Q : A -> bool) (l : list A) :
  (forall x, P x = true -> Q x = false) ->
  Forall (fun x => P x = true) l -> filter Q l = [].
Proof.
  intros HPQ H. induction H as [|x l Hx _ IH]; simpl; [reflexivity|].
  now rewrite (HPQ x Hx).
Qed.

Lemma path_events_kind (self : SituationSummarizer) (tr : list event)
    (r : outcome SituationSummary) (evs : list event) :
  summarize_path self tr r evs ->
  Forall (fun e => is_summarizer_event e = true) evs.
Proof.
  assert (E : forall e, Forall (fun x => is_summarizer_event x = true)
                          (error_log e)).
  { intros e. unfold error_log.
    destruct (exc_is_Exception e);
      repeat first [apply Forall_nil | apply Forall_cons; [reflexivity|]]. }
  assert (R : forall st, Forall (fun x => is_summarizer_event x = true)
                           (render_events st)).
  { intros st. unfold render_events.
    destruct (dom_state st) as [[[m|]]|];
      repeat first [apply Forall_nil | apply Forall_cons; [reflexivity|]]. }
  assert (W : forall st, Forall (fun x => is_summarizer_event x = true)
                           (warn_events st)).
  { intros st. unfold warn_events.
    destruct (screenshot_truthy st);
      repeat first [apply Forall_nil | apply Forall_cons; [reflexivity|]]. }
  assert (B : forall st, Forall (fun x => is_summarizer_event x = true)
                           (before_invoke st)).
  { intros st. unfold before_invoke.
    apply Forall_app. split.
    { repeat first [apply Forall_nil | apply Forall_cons; [reflexivity|]]. }
    apply Forall_app. split; [exact (R st)|].
    apply Forall_cons; [reflexivity|].
    apply Forall_app. split; [exact (W st)|].
    repeat first [apply Forall_nil | apply Forall_cons; [reflexivity|]]. }
  intros [e H|st e H1 H2|st ui e H1 H2 H3|st ui resp H1 H2 H3].
  - apply Forall_app. split; [|exact (E e)].
    repeat first [apply Forall_nil | apply Forall_cons; [reflexivity|]].
  - apply Forall_app. split; [|apply Forall_app; split; [exact (R st)|exact (E e)]].
    repeat first [apply Forall_nil | apply Forall_cons; [reflexivity|]].
  - apply Forall_app. split; [exact (B st)|].
    apply Forall_cons; [reflexivity|exact (E e)].
  - apply Forall_app. split; [exact (B st)|].
    repeat first [apply Forall_nil | apply Forall_cons; [reflexivity|]].
Qed.

Lemma path_terminations (self : SituationSummarizer) (tr : list event)
    (r : outcome SituationSummary) (evs : list event) :
  summarize_path self tr r evs -> terminations evs = [].
Proof.
  intros H. apply filter_none with (P := is_summarizer_event).
  - intros []; simpl; congruence.
  - exact (path_events_kind H).
Qed.

Lemma path_no_summarize_call (self : SituationSummarizer) (tr : list event)
    (r : outcome SituationSummary) (evs : list event) (q : pystr) :
  summarize_path self tr r evs -> ~ In (ESummarize q) evs.
Proof.
  intros H Hin. pose proof (path_events_kind H) as K.
  rewrite Forall_forall in K. apply K in Hin. discriminate Hin.
Qed.

(** The step that failed is the one whose exception [summarize] raises. *)
Lemma path_failures (self : SituationSummarizer) (tr : list event)
    (r : outcome SituationSummary) (evs : list event) :
  summarize_path self tr r evs ->
  step_failures evs = match r with Raise e => [e] | Ret _ => [] end.
Proof.
  intros [e H|st e H1 H2|st ui e H1 H2 H3|st ui resp H1 H2 H3];
    rewrite ?step_failures_app.
  - destruct (error_log_quiet e) as (_ & _ & -> & _). reflexivity.
  - destruct (error_log_quiet e) as (_ & _ & -> & _).
    rewrite render_events_failures, H2. reflexivity.
  - destruct (error_log_quiet e) as (_ & _ & -> & _).
    rewrite (before_invoke_failures _ H2). reflexivity.
  - rewrite (before_invoke_failures _ H2). reflexivity.
Qed.

(** A failed call ends with the error record when the exception is an
    [Exception], and adds nothing after the failing step when it is not. *)
Lemma path_raise_ends (self : SituationSummarizer) (tr : list event)
    (e : PyExc) (evs : list event) :
  summarize_path self tr (Raise e) evs ->
  exists pre, evs = pre ++ error_log e /\
              forall msg, ~ In (ELog ERROR msg) pre.
Proof.
  intros H.
  inversion H as [e' H0|st e' H1 H2|st ui e' H1 H2 H3|]; subst.
  - eexists. split; [reflexivity|]. intros msg Hin.
    unfold log_1 in Hin. in_inv Hin.
  - eexists. rewrite app_assoc. split; [reflexivity|]. intros msg Hin.
    unfold render_events, log_1, log_2 in Hin.
    destruct (dom_state st) as [[[m|]]|]; in_inv Hin.
  - exists (before_invoke st ++ [EInvoke (messages_of self st ui) (Raise e)]).
    rewrite <- app_assoc. split; [reflexivity|]. intros msg Hin.
    unfold before_invoke, render_events, warn_events, log_1, log_2, log_3,
      log_4 in Hin.
    destruct (dom_state st) as [[[m|]]|]; destruct (screenshot_truthy st);
      in_inv Hin.
Qed.

Lemma shutdown_run (browser : BrowserSession) (w : World) :
  shutdown browser w =
  (shutdown_result browser (trace w),
   appends w (shutdown_events browser (trace w))).
Proof.
  unfold shutdown, shutdown_result, shutdown_events, termination_call, appends.
  run_M. fold closing_message closed_message no_method_message
    shutdown_error_prefix.
  destruct (kill browser) as [k|]; [|destruct (stop browser) as [s|]]; simpl.
  - destruct (k _) as [[]|e]; simpl;
      [|destruct (exc_is_Exception e); simpl]; norm_trace; reflexivity.
  - destruct (s _) as [[]|e]; simpl;
      [|destruct (exc_is_Exception e); simpl]; norm_trace; reflexivity.
  - norm_trace. reflexivity.
Qed.

Lemma menu_events_terminations (o : outcome pystr) :
  terminations (menu_events o) = [].
Proof. reflexivity. Qed.

Lemma summary_events_quiet (r : outcome SituationSummary) :
  terminations (summary_events r) = [] /\
  step_failures (summary_events r) = [] /\
  sent_messages (summary_events r) = [] /\
  summarize_calls (summary_events r) = [].
Proof.
  unfold summary_events.
  destruct r as [s|e]; [|destruct (exc_is_Exception e)]; auto.
Qed.

Lemma agent_error_events_terminations (o : outcome unit) :
  terminations (agent_error_events o) = [].
Proof.
  unfold agent_error_events.
  destruct o as [[]|e]; [|destruct (exc_is_Exception e)]; reflexivity.
Qed.

Section LoopFacts.

Variable llm : BaseChatModel.
Variable browser : BrowserSession.
Variable Agent : AgentLib.

(** One pass only appends to the trace, never touches the browser profile,
    asks for no termination of the handle, and reads at least one line
    unless it raises. *)
Lemma loop_body_step (w : World) :
  exists r evs rest,
    loop_body llm browser Agent w
      = (r, mkWorld (trace w ++ evs) rest (profile w)) /\
    terminations evs = [] /\
    (forall c, r = Ret c -> length rest < length (stdin w)).
Proof.
  destruct (stdin w) as [|line rest] eqn:Hin.
  { eexists _, _, _. split; [apply (loop_body_eof llm browser Agent w Hin)|].
    split; [reflexivity|]. intros c Hc. discriminate Hc. }
  destruct (eqb (strip line) (u "q")) eqn:Eq.
  { apply eqb_eq in Eq. eexists _, _, _.
    split; [apply (loop_body_quit llm browser Agent w Hin Eq)|].
    split; [reflexivity|]. intros c _. simpl. lia. }
  destruct (eqb (strip line) (u "1")) eqn:E1.
  { apply eqb_eq in E1. destruct rest as [|task rest].
    { eexists _, _, _.
      split; [apply (loop_body_task_eof llm browser Agent w Hin E1)|].
      split; [reflexivity|]. intros c Hc. discriminate Hc. }
    destruct task as [|c0 task].
    { eexists _, _, _.
      split; [apply (loop_body_task_empty llm browser Agent w Hin E1)|].
      split; [reflexivity|]. intros c _. simpl. lia. }
    assert (Hne : c0 :: task <> []) by discriminate.
    eexists _, _, _.
    split; [apply (loop_body_task llm browser Agent w Hin E1 Hne)|].
    split; [|intros c _; simpl; lia].
    rewrite terminations_app. simpl.
    now rewrite agent_error_events_terminations. }
  destruct (eqb (strip line) (u "2")) eqn:E2.
  { apply eqb_eq in E2. destruct rest as [|query rest].
    { eexists _, _, _.
      split; [apply (loop_body_query_eof llm browser Agent w Hin E2)|].
      split; [reflexivity|]. intros c Hc. discriminate Hc. }
    destruct (loop_body_query llm browser Agent w Hin E2)
      as (r & evs & Hpath & Hrun).
    eexists _, _, _. split; [exact Hrun|].
    split; [|intros c _; simpl; lia].
    rewrite !terminations_app, (path_terminations Hpath).
    destruct (summary_events_quiet r) as (-> & _). reflexivity. }
  apply eqb_neq in Eq, E1, E2. eexists _, _, _.
  split; [apply (loop_body_other llm browser Agent w Hin Eq E1 E2)|].
  split; [reflexivity|]. intros c _. simpl. lia.
Qed.

(** With more fuel than lines of input the loop comes to an end, by [q]
    or by an exception, and no pass has asked the handle to terminate. *)
Lemma while_True_enough_fuel (fuel : nat) (w : World) :
  length (stdin w) < fuel ->
  exists r evs rest,
    while_True fuel (loop_body llm browser Agent) w
      = Some (r, mkWorld (trace w ++ evs) rest (profile w)) /\
    terminations evs = [].
Proof.
  revert w. induction fuel as [|fuel IH]; intros w Hlen; [lia|].
  destruct (loop_body_step w) as (r & evs & rest & Hrun & Hterm & Hless).
  simpl. rewrite Hrun. destruct r as [[]|e].
  - specialize (Hless Continue eq_refl).
    destruct (IH (mkWorld (trace w ++ evs) rest (profile w)))
      as (r' & evs' & rest' & Hloop & Hterm'); [simpl; lia|].
    simpl in Hloop. rewrite Hloop.
    exists r', (evs ++ evs'), rest'. rewrite app_assoc. split; [reflexivity|].
    now rewrite terminations_app, Hterm, Hterm'.
  - eauto.
  - eauto.
Qed.

End LoopFacts.

Lemma new_events_of (A : Type) (m : M A) (w w' : World) (r : outcome A)
    (evs : list event) :
  m w = (r, w') -> trace w' = trace w ++ evs ->
  new_events m w = evs /\ result m w = r.
Proof.
  unfold new_events, result. intros -> Ht. simpl. rewrite Ht.
  now rewrite skipn_length_app.
Qed.

Lemma summarize_calls_app (a b : list event) :
  summarize_calls (a ++ b) = summarize_calls a ++ summarize_calls b.
Proof. apply flat_map_app. Qed.

Lemma path_summarize_calls (self : SituationSummarizer) (tr : list event)
    (r : outcome SituationSummary) (evs : list event) :
  summarize_path self tr r evs -> summarize_calls evs = [].
Proof.
  intros H. pose proof (path_events_kind H) as K. clear H.
  induction K as [|x l Hx _ IH]; [reflexivity|].
  unfold summarize_calls in *. simpl.
  destruct x; simpl in Hx; try discriminate Hx; simpl; exact IH.
Qed.

Lemma query_instruction_default : query_instruction default_query = [].
Proof.
  unfold query_instruction. rewrite eqb_refl. simpl.
  now rewrite andb_false_r.
Qed.

Lemma effective_query_empty (query : pystr) :
  strip query = [] -> effective_query query = default_query.
Proof. unfold effective_query. now intros ->. Qed.

Lemma query_events_quiet (line query : pystr) :
  terminations (query_events line query) = [] /\
  step_failures (query_events line query) = [] /\
  sent_messages (query_events line query) = [] /\
  summarize_calls (query_events line query) = [effective_query query].
Proof. repeat split; reflexivity. Qed.

Lemma shutdown_events_terminations (browser : BrowserSession) (tr : list event) :
  terminations (shutdown_events browser tr) =
  match termination_call browser (tr ++ [EPrint closing_message]) with
  | Some ev => [ev]
  | None => []
  end.
Proof.
  unfold shutdown_events, termination_call.
  destruct (kill browser) as [k|]; [|destruct (stop browser) as [s|]].
  - unfold terminations. simpl.
    destruct (k _) as [[]|e]; [|destruct (exc_is_Exception e)]; reflexivity.
  - unfold terminations. simpl.
    destruct (s _) as [[]|e]; [|destruct (exc_is_Exception e)]; reflexivity.
  - reflexivity.
Qed.

(* ===================================================================== *)
(** ** The menu *)
(* ===================================================================== *)

(** C8, as the code has it.  When the menu line, stripped of surrounding
    white space, is none of [1], [2], [q], the pass displays the menu, reads
    that line and does nothing else: no agent, no summarization, no
    shutdown, and the loop goes on. *)
Theorem unknown_choice_redisplays_menu
    (llm : BaseChatModel) (browser : BrowserSession) (Agent : AgentLib)
    (w : World) (line : pystr) (rest : list pystr) :
  stdin w = line :: rest ->
  strip line <> u "1" -> strip line <> u "2" -> strip line <> u "q" ->
  result (loop_body llm browser Agent) w = Ret Continue /\
  new_events (loop_body llm browser Agent) w = menu_events (Ret line) /\
  stdin (snd (loop_body llm browser Agent w)) = rest /\
  profile (snd (loop_body llm browser Agent w)) = profile w.
Proof.
  intros Hin H1 H2 Hq.
  pose proof (loop_body_other llm browser Agent w Hin Hq H1 H2) as Hrun.
  destruct (new_events_of (loop_body llm browser Agent) w
              (menu_events (Ret line)) Hrun eq_refl) as [Hn Hr].
  rewrite Hrun. auto.
Qed.

(** C10.  The task text of option 1 is taken as entered: the empty line
    alone skips the agent; any other line, white space included, is the
    task the agent is built with and run on. *)
Theorem task_text_taken_verbatim
    (llm : BaseChatModel) (browser : BrowserSession) (Agent : AgentLib)
    (w : World) (line task : pystr) (rest : list pystr) :
  stdin w = line :: task :: rest ->
  strip line = u "1" ->
  (task = [] ->
   result (loop_body llm browser Agent) w = Ret Continue /\
   new_events (loop_body llm browser Agent) w
     = menu_events (Ret line) ++ [EInput task_prompt (Ret [])]) /\
  (task <> [] ->
   exists o,
     new_events (loop_body llm browser Agent) w
       = task_events line task ++ EAgentRun task o :: agent_error_events o /\
     In (EAgent task true) (new_events (loop_body llm browser Agent) w) /\
     In (EAgentRun task o) (new_events (loop_body llm browser Agent) w)).
Proof.
  intros Hin Hc. split.
  - intros ->.
    pose proof (loop_body_task_empty llm browser Agent w Hin Hc) as Hrun.
    destruct (new_events_of (loop_body llm browser Agent) w
                (menu_events (Ret line) ++ [EInput task_prompt (Ret [])])
                Hrun eq_refl) as [Hn Hr].
    auto.
  - intros Hne.
    pose proof (loop_body_task llm browser Agent w Hin Hc Hne) as Hrun.
    cbv zeta in Hrun.
    match type of Hrun with
    | _ = (_, mkWorld (_ ++ ?evs) _ _) =>
        destruct (new_events_of (loop_body llm browser Agent) w evs
                    Hrun eq_refl) as [Hn Hr]
    end.
    eexists. split; [exact Hn|]. rewrite Hn. split.
    + apply in_or_app. left. unfold task_events.
      apply in_or_app. right. apply in_cons, in_eq.
    + apply in_or_app. right. apply in_eq.
Qed.

(** C6.  When option 2 is chosen and the query line is empty once stripped,
    the summarizer is called with the fixed default question, and with it the
    system prompt sent to the model carries no query instruction. *)
Theorem empty_query_becomes_default
    (llm : BaseChatModel) (browser : BrowserSession) (Agent : AgentLib)
    (w : World) (line query : pystr) (rest : list pystr) :
  stdin w = line :: query :: rest ->
  strip line = u "2" ->
  strip query = [] ->
  summarize_calls (new_events (loop_body llm browser Agent) w)
    = [default_query] /\
  default_query = u "今の画面はどうなっている？" /\
  query_instruction default_query = [] /\
  (forall messages,
      In messages (sent_messages (new_events (loop_body llm browser Agent) w)) ->
      exists content,
        messages = [SystemMessage (system_prompt []); UserMessage content]).
Proof.
  intros Hin Hc Hq.
  destruct (loop_body_query llm browser Agent w Hin Hc)
    as (r & evs & Hpath & Hrun).
  match type of Hrun with
  | _ = (_, mkWorld (_ ++ ?new) _ _) =>
      destruct (new_events_of (loop_body llm browser Agent) w new
                  Hrun eq_refl) as [Hn _]
  end.
  rewrite Hn. rewrite (effective_query_empty query Hq) in Hpath.
  destruct (query_events_quiet line query) as (_ & _ & Qs & Qc).
  destruct (summary_events_quiet r) as (_ & _ & Ss & Sc).
  split; [|split; [reflexivity|split; [exact query_instruction_default|]]].
  - rewrite !summarize_calls_app, Qc, Sc, (path_summarize_calls Hpath).
    now rewrite (effective_query_empty query Hq).
  - intros messages Hm.
    rewrite !sent_messages_app, Qs, Ss, app_nil_r in Hm. simpl in Hm.
    destruct (path_sent Hpath) as [H0|(state & ui & _ & _ & Hs & _)].
    + rewrite H0 in Hm. contradiction.
    + rewrite Hs in Hm. simpl in Hm.
      destruct Hm as [Hm|Hm]; [subst messages|contradiction].
      unfold messages_of. simpl. rewrite query_instruction_default. eauto.
Qed.

Lemma no_error_record (l : list event) :
  (forall msg, ~ In (ELog ERROR msg) l) -> filter is_error_record l = [].
Proof.
  induction l as [|x l IH]; intros H; [reflexivity|].
  simpl. destruct x as [| |[] msg| | | | | | | |]; simpl;
    try (apply IH; intros m Hm; apply (H m); right; exact Hm).
  exfalso. apply (H msg). left. reflexivity.
Qed.

(* ===================================================================== *)
(** ** Failures *)
(* ===================================================================== *)

(** C2, as the code has it.  An exception raised during any step of
    [summarize] (page-state fetch, prompt construction with the rendering of
    the UI list, model invocation) is the exception [summarize] raises.  When
    it is an instance of [Exception], the summarizer logs the error record
    with the traceback as its last act; the option-2 handler of the loop then
    prints the error and the hint to run a task first, the pass ends normally
    so that the menu comes back, and the browser handle is not asked to
    terminate.  When it is not an instance of [Exception], nothing is logged
    and the option-2 handler does not catch it: the pass raises it, having
    printed neither the error nor the hint. *)
Theorem summarize_failure_logged_and_absorbed :
  (forall (self : SituationSummarizer) (w : World) (e : PyExc),
      In e (step_failures (new_events (summarize self) w)) ->
      result (summarize self) w = Raise e) /\
  (forall (self : SituationSummarizer) (w : World) (e : PyExc),
      result (summarize self) w = Raise e ->
      if exc_is_Exception e
      then exists pre,
             new_events (summarize self) w
               = pre ++ [ELog ERROR
                           ((u "❌ 要約処理中に致命的なエラーが発生しました:" +++ newline)
                            +++ exc_traceback e)] /\
             filter is_error_record pre = []
      else filter is_error_record (new_events (summarize self) w) = []) /\
  (forall (llm : BaseChatModel) (browser : BrowserSession) (Agent : AgentLib)
          (w : World) (line query : pystr) (rest : list pystr) (e : PyExc),
      stdin w = line :: query :: rest ->
      strip line = u "2" ->
      In e (step_failures (new_events (loop_body llm browser Agent) w)) ->
      terminations (new_events (loop_body llm browser Agent) w) = [] /\
      if exc_is_Exception e
      then result (loop_body llm browser Agent) w = Ret Continue /\
           exists pre,
             new_events (loop_body llm browser Agent) w
               = pre ++ [ELog ERROR
                           ((u "❌ 要約処理中に致命的なエラーが発生しました:" +++ newline)
                            +++ exc_traceback e);
                         EPrint (u "要約中にエラーが発生しました: " +++ exc_str e);
                         EPrint (u "※まだブラウザが開いていない場合、先に「1」で何らかのタスク（例: 'Googleを開いて'）を実行してください。")]
      else result (loop_body llm browser Agent) w = Raise e /\
           exists evs,
             new_events (loop_body llm browser Agent) w
               = query_events line query ++ evs /\
             Forall (fun x => is_summarizer_event x = true) evs).
Proof.
  change (u "❌ 要約処理中に致命的なエラーが発生しました:" +++ newline)
    with fatal_error_prefix.
  change (u "※まだブラウザが開いていない場合、先に「1」で何らかのタスク（例: 'Googleを開いて'）を実行してください。")
    with summarize_error_hint.
  assert (F : forall self tr r evs e,
             summarize_path self tr r evs ->
             In e (step_failures evs) -> r = Raise e).
  { intros self tr r evs e Hpath Hin.
    rewrite (path_failures Hpath) in Hin.
    destruct r as [s|e']; simpl in Hin; [contradiction|].
    destruct Hin as [Hin|Hin]; [congruence|contradiction]. }
  assert (L : forall self tr evs e,
             summarize_path self tr (Raise e) evs ->
             if exc_is_Exception e
             then exists pre,
                    evs = pre ++ [ELog ERROR
                                    (fatal_error_prefix +++ exc_traceback e)]
                    /\ filter is_error_record pre = []
             else filter is_error_record evs = []).
  { intros self tr evs e Hpath.
    destruct (path_raise_ends Hpath) as (pre & -> & Hpre).
    apply no_error_record in Hpre.
    unfold error_log. destruct (exc_is_Exception e).
    - exists pre. auto.
    - now rewrite app_nil_r. }
  split; [|split].
  - intros self w e Hin.
    destruct (summarize_run self w) as (r & evs & _ & Hnew & Hr & Hpath).
    rewrite Hnew in *. rewrite Hr. exact (F self (trace w) r evs e Hpath Hin).
  - intros self w e Hres.
    destruct (summarize_run self w) as (r & evs & _ & Hnew & Hr & Hpath).
    rewrite Hnew. rewrite Hr in Hres. subst r.
    exact (L self (trace w) evs e Hpath).
  - intros llm browser Agent w line query rest e Hstdin Hc Hin.
    destruct (loop_body_query llm browser Agent w Hstdin Hc)
      as (r & evs & Hpath & Hrun).
    match type of Hrun with
    | _ = (_, mkWorld (_ ++ ?new) _ _) =>
        destruct (new_events_of (loop_body llm browser Agent) w new
                    Hrun eq_refl) as [Hn Hr]
    end.
    rewrite Hn in *. rewrite Hr.
    destruct (query_events_quiet line query) as (Qt & Qf & _ & _).
    destruct (summary_events_quiet r) as (St & Sf & _ & _).
    rewrite !step_failures_app, Qf, Sf, app_nil_r in Hin. simpl in Hin.
    split.
    { rewrite !terminations_app, Qt, St, (path_terminations Hpath).
      reflexivity. }
    pose proof (F _ _ r evs e Hpath Hin) as ->.
    pose proof (L _ _ evs e Hpath) as Hl.
    pose proof (path_events_kind Hpath) as K.
    unfold absorbed, summary_events.
    destruct (exc_is_Exception e).
    + destruct Hl as (pre & -> & _). split; [reflexivity|].
      exists (query_events line query ++ pre).
      rewrite <- !app_assoc. reflexivity.
    + split; [reflexivity|]. exists evs. rewrite app_nil_r. auto.
Qed.

(** A session that comes to an end asked for termination in its shutdown
    block only. *)
Lemma shutdown_terminates_at_most_once
    (llm : BaseChatModel) (browser : BrowserSession) (Agent : AgentLib)
    (fuel : nat) (w : World) :
  length (stdin w) < fuel ->
  exists r w',
    session llm browser Agent fuel w = Some (r, w') /\
    length (terminations (skipn (length (trace w)) (trace w'))) <= 1 /\
    (kill browser <> None \/ stop browser <> None ->
     length (terminations (skipn (length (trace w)) (trace w'))) = 1).
Proof.
  intros Hlen.
  destruct (while_True_enough_fuel llm browser Agent w Hlen)
    as (r & evs & rest & Hloop & Hterm).
  unfold session. rewrite Hloop. unfold finally_. simpl.
  rewrite shutdown_run. unfold appends. simpl.
  set (sev := shutdown_events browser (trace w ++ evs)).
  assert (T : terminations (skipn (length (trace w))
                              ((trace w ++ evs) ++ sev))
              = terminations sev).
  { rewrite <- app_assoc, skipn_length_app, terminations_app, Hterm.
    reflexivity. }
  assert (L : length (terminations sev) <= 1 /\
              (kill browser <> None \/ stop browser <> None ->
               length (terminations sev) = 1)).
  { unfold sev. rewrite shutdown_events_terminations.
    unfold termination_call.
    destruct (kill browser) as [k|]; [|destruct (stop browser) as [s|]];
      simpl; split; try lia; auto.
    intros [H|H]; congruence. }
  destruct (shutdown_result browser (trace w ++ evs)) as [[]|e];
    eexists _, _; (split; [reflexivity|]); simpl; rewrite T; exact L.
Qed.

(** C7, as the code has it.  The shutdown block asks the browser handle for
    one termination operation: [kill] when the handle exposes it, else [stop]
    when it exposes that, and for none, printing that no method was found,
    when it exposes neither.  An exception of class [Exception] raised by
    that operation is caught and printed and the block ends normally; an
    exception that is not an [Exception] is not caught: the block raises it,
    with nothing printed after the call.  A session that reads [q] ends with
    exactly this block, and a session that comes to an end has asked for
    termination at most once, in that block. *)
Theorem shutdown_terminates_handle_once :
  (forall (browser : BrowserSession) (w : World),
      (forall k, kill browser = Some k ->
                 exists o, terminations (new_events (shutdown browser) w)
                           = [EKill o]) /\
      (forall s, kill browser = None -> stop browser = Some s ->
                 exists o, terminations (new_events (shutdown browser) w)
                           = [EStop o]) /\
      (kill browser = None -> stop browser = None ->
       terminations (new_events (shutdown browser) w) = [] /\
       In (EPrint (u "※ 終了メソッドが見つかりませんでした。"))
          (new_events (shutdown browser) w)) /\
      (forall ev e,
          In ev (terminations (new_events (shutdown browser) w)) ->
          termination_outcome ev = Raise e ->
          if exc_is_Exception e
          then result (shutdown browser) w = Ret tt /\
               In (EPrint (u "ブラウザの終了中にエラーが発生しました: "
                           +++ exc_str e))
                  (new_events (shutdown browser) w)
          else result (shutdown browser) w = Raise e /\
               new_events (shutdown browser) w
                 = [EPrint (u "ブラウザを閉じています..."); ev]) /\
      ((forall ev, In ev (terminations (new_events (shutdown browser) w)) ->
                   termination_outcome ev = Ret tt) ->
       result (shutdown browser) w = Ret tt)) /\
  (forall (llm : BaseChatModel) (browser : BrowserSession) (Agent : AgentLib)
          (fuel : nat) (w : World) (line : pystr) (rest : list pystr),
      stdin w = line :: rest ->
      strip line = u "q" ->
      session llm browser Agent (S fuel) w =
      Some (shutdown (browser)
              (mkWorld (trace w ++ menu_events (Ret line)
                        ++ [EPrint (u "終了します。")])
                 rest (profile w)))) /\
  (forall (llm : BaseChatModel) (browser : BrowserSession) (Agent : AgentLib)
          (fuel : nat) (w : World),
      length (stdin w) < fuel ->
      exists r w',
        session llm browser Agent fuel w = Some (r, w') /\
        length (terminations (skipn (length (trace w)) (trace w'))) <= 1 /\
        (kill browser <> None \/ stop browser <> None ->
         length (terminations (skipn (length (trace w)) (trace w'))) = 1)).
Proof.
  change (u "※ 終了メソッドが見つかりませんでした。") with no_method_message.
  change (u "ブラウザの終了中にエラーが発生しました: ") with shutdown_error_prefix.
  change (u "ブラウザを閉じています...") with closing_message.
  split; [|split].
  - intros browser w.
    pose proof (shutdown_run browser w) as Hrun.
    destruct (new_events_appends (shutdown browser) Hrun) as [Hn Hr].
    rewrite Hn, Hr. clear Hn Hr Hrun.
    rewrite shutdown_events_terminations.
    unfold shutdown_events, shutdown_result, termination_call.
    destruct (kill browser) as [k|]; [|destruct (stop browser) as [s|]].
    + split; [eauto|]. split; [intros s H; discriminate H|].
      split; [intros H; discriminate H|]. simpl. split.
      * intros ev e [<-|[]] Ho. simpl in Ho. rewrite Ho.
        destruct (exc_is_Exception e).
        -- split; [reflexivity|]. right. right. left. reflexivity.
        -- split; reflexivity.
      * intros H. pose proof (H _ (or_introl eq_refl)) as Ho.
        simpl in Ho. rewrite Ho. reflexivity.
    + split; [intros k H; discriminate H|]. split; [eauto|].
      split; [intros _ H; discriminate H|]. simpl. split.
      * intros ev e [<-|[]] Ho. simpl in Ho. rewrite Ho.
        destruct (exc_is_Exception e).
        -- split; [reflexivity|]. right. right. left. reflexivity.
        -- split; reflexivity.
      * intros H. pose proof (H _ (or_introl eq_refl)) as Ho.
        simpl in Ho. rewrite Ho. reflexivity.
    + split; [intros k H; discriminate H|].
      split; [intros s _ H; discriminate H|]. simpl. split.
      * intros _ _. split; [reflexivity|]. right. left. reflexivity.
      * split; [intros ev e []|reflexivity].
  - intros llm browser Agent fuel w line rest Hin Hq.
    unfold session. simpl.
    rewrite (loop_body_quit llm browser Agent w Hin Hq).
    unfold finally_. simpl.
    destruct (shutdown browser _) as [[[]|e] w']; reflexivity.
  - intros llm browser Agent fuel w Hlen.
    exact (shutdown_terminates_at_most_once llm browser Agent w Hlen).
Qed.

(** End to end: [main] comes to an end on every finite input. *)
Lemma main_comes_to_an_end
    (getenv : option pystr)
    (ChatGoogle : pystr -> pystr -> BaseChatModel)
    (Browser : BrowserProfile -> BrowserSession)
    (BrowserProfile_ : bool -> bool -> bool -> BrowserProfile)
    (Agent : BaseChatModel -> BrowserSession -> AgentLib)
    (lines : list pystr) :
  exists r w, main getenv ChatGoogle Browser BrowserProfile_ Agent lines
              = Some (r, w).
Proof.
  unfold main.
  destruct (startup _ _ _ _ _) as [[[llm browser]|e] w] eqn:Hs; [|eauto].
  assert (Hlen : length (stdin w) < S (length lines)).
  { revert Hs. unfold startup, unset_window_geometry. run_M.
    destruct getenv as [k|]; [destruct (truthy k)|]; simpl;
      intros H; inversion H; subst; simpl; lia. }
  destruct (shutdown_terminates_at_most_once llm browser
              (Agent llm browser) w Hlen) as (r & w' & H & _).
  eauto.
Qed.

(* ===================================================================== *)
(** ** The theorems at concrete inputs *)
(* ===================================================================== *)

Ltac by_computation := vm_compute; repeat first [reflexivity | left; reflexivity | right].

Ltac differ := let H := fresh in intro H; vm_compute in H; discriminate H.

(** A page with a screenshot: system message, then text and image. *)
Lemma summarize_request_shape_witness :
  In (messages_of Demo.summarizer Demo.page (u "[12]<button>検索</button>"))
     (sent_messages (new_events (summarize Demo.summarizer) (Demo.world [])))
  /\
  (sent_messages (new_events (summarize Demo.summarizer) (Demo.world []))
   = [messages_of Demo.summarizer Demo.page (u "[12]<button>検索</button>")] /\
   exists state sys content,
     fetched_states (new_events (summarize Demo.summarizer) (Demo.world []))
       = [state] /\
     messages_of Demo.summarizer Demo.page (u "[12]<button>検索</button>")
       = [SystemMessage sys; UserMessage content] /\
     (if screenshot_truthy state
      then exists text shot,
             screenshot state = Some shot /\
             content = [ContentPartTextParam text;
                        ContentPartImageParam
                          (mkImageURL (u "data:image/png;base64," +++ shot)
                                      (u "image/png"))] /\
             ~ In (ELog WARNING (u "⚠️ スクリーンショットが取得できませんでした。"))
                  (new_events (summarize Demo.summarizer) (Demo.world []))
      else (exists text, content = [ContentPartTextParam text]) /\
           In (ELog WARNING (u "⚠️ スクリーンショットが取得できませんでした。"))
              (new_events (summarize Demo.summarizer) (Demo.world []))) /\
     length (filter is_image_part content) <= 1).
Proof.
  assert (H : In (messages_of Demo.summarizer Demo.page
                    (u "[12]<button>検索</button>"))
                 (sent_messages (new_events (summarize Demo.summarizer)
                                   (Demo.world [])))).
  { by_computation. }
  split; [exact H|].
  exact (summarize_request_shape Demo.summarizer (Demo.world []) _ H).
Defined.


(** A [completion] that is not a string goes through [str]. *)
Lemma raw_response_from_completion_witness :
  raw_response
    (mkSituationSummary (u "{'answer': 42}") placeholder placeholder)
  = match completion Demo.odd_response with
    | Some v => py_str v
    | None => response_str Demo.odd_response
    end /\
  (forall text, completion Demo.odd_response = Some (PyStr text) ->
     raw_response
       (mkSituationSummary (u "{'answer': 42}") placeholder placeholder)
     = text).
Proof.
  apply (@raw_response_from_completion
           (mkSummarizer Demo.browser (Demo.llm_returning Demo.odd_response) [])
           (Demo.world [])
           (mkSituationSummary (u "{'answer': 42}") placeholder placeholder)
           (messages_of
              (mkSummarizer Demo.browser
                 (Demo.llm_returning Demo.odd_response) [])
              Demo.page (u "[12]<button>検索</button>"))
           Demo.odd_response).
  - by_computation.
  - by_computation.
Defined.

Lemma fallback_when_ui_list_unavailable_witness :
  (forall r, ~ In (ELlmRepresentation r)
                 (new_events (summarize Demo.bare_summarizer) (Demo.world [])))
  /\
  (exists sys rest o,
      sent_messages (new_events (summarize Demo.bare_summarizer) (Demo.world []))
        = [[SystemMessage sys;
            UserMessage (ContentPartTextParam (user_text fallback_ui_text)
                         :: rest)]]
      /\ In (EInvoke [SystemMessage sys;
                      UserMessage (ContentPartTextParam
                                     (user_text fallback_ui_text) :: rest)] o)
            (new_events (summarize Demo.bare_summarizer) (Demo.world []))) /\
  fallback_ui_text = u "UI要素リストを取得できませんでした。" /\
  user_text fallback_ui_text
    = u "以下のUI要素リストと添付のスクリーンショットをもとに、画面状況を要約してください。"
      +++ newline +++ newline +++ u "## UI要素リスト" +++ newline
      +++ u "UI要素リストを取得できませんでした。".
Proof.
  apply (fallback_when_ui_list_unavailable Demo.bare_summarizer
           (Demo.world []) Demo.bare_page).
  - by_computation.
  - right. exists (mkDom None). split; reflexivity.
Defined.

Lemma empty_screenshot_counts_as_absent_witness :
  (exists ui,
      messages_of Demo.bare_summarizer Demo.bare_page fallback_ui_text
        = messages_of Demo.bare_summarizer
            (mkState (dom_state Demo.bare_page) None) ui /\
      messages_of Demo.bare_summarizer Demo.bare_page fallback_ui_text
        = [SystemMessage
             (system_prompt
                (query_instruction (user_query Demo.bare_summarizer)));
           UserMessage [ContentPartTextParam (user_text ui)]]) /\
  In (ELog WARNING no_screenshot_warning)
     (new_events (summarize Demo.bare_summarizer) (Demo.world [])).
Proof.
  apply (empty_screenshot_counts_as_absent Demo.bare_summarizer
           (Demo.world []) Demo.bare_page)
    with (o := Ret (Demo.reply (u "検索ページです。"))).
  - by_computation.
  - left. reflexivity.
  - by_computation.
Defined.

(** An unknown choice. *)
Lemma unknown_choice_redisplays_menu_witness :
  result (loop_body Demo.llm Demo.browser Demo.Agent)
    (Demo.world [u "x"; u "1"]) = Ret Continue /\
  new_events (loop_body Demo.llm Demo.browser Demo.Agent)
    (Demo.world [u "x"; u "1"]) = menu_events (Ret (u "x")) /\
  stdin (snd (loop_body Demo.llm Demo.browser Demo.Agent
                (Demo.world [u "x"; u "1"]))) = [u "1"] /\
  profile (snd (loop_body Demo.llm Demo.browser Demo.Agent
                  (Demo.world [u "x"; u "1"])))
    = profile (Demo.world [u "x"; u "1"]).
Proof.
  apply (@unknown_choice_redisplays_menu Demo.llm Demo.browser Demo.Agent
           (Demo.world [u "x"; u "1"]) (u "x") [u "1"]).
  - reflexivity.
  - differ.
  - differ.
  - differ.
Defined.

(** A task of three spaces is a task. *)
Lemma task_text_taken_verbatim_witness :
  strip (u "   ") = [] /\
  exists o,
    new_events (loop_body Demo.llm Demo.browser Demo.Agent)
      (Demo.world [u "1"; u "   "])
      = task_events (u "1") (u "   ")
        ++ EAgentRun (u "   ") o :: agent_error_events o /\
    In (EAgent (u "   ") true)
       (new_events (loop_body Demo.llm Demo.browser Demo.Agent)
          (Demo.world [u "1"; u "   "])) /\
    In (EAgentRun (u "   ") o)
       (new_events (loop_body Demo.llm Demo.browser Demo.Agent)
          (Demo.world [u "1"; u "   "])).
Proof.
  split; [by_computation|].
  apply (proj2 (@task_text_taken_verbatim Demo.llm Demo.browser Demo.Agent
                  (Demo.world [u "1"; u "   "]) (u "1") (u "   ") []
                  eq_refl ltac:(by_computation))).
  differ.
Defined.

Lemma empty_query_becomes_default_witness :
  summarize_calls
    (new_events (loop_body Demo.llm Demo.browser Demo.Agent)
       (Demo.world [u " 2"; u "  "]))
    = [default_query] /\
  default_query = u "今の画面はどうなっている？" /\
  query_instruction default_query = [] /\
  (forall messages,
      In messages
         (sent_messages
            (new_events (loop_body Demo.llm Demo.browser Demo.Agent)
               (Demo.world [u " 2"; u "  "]))) ->
      exists content,
        messages = [SystemMessage (system_prompt []); UserMessage content]).
Proof.
  apply (@empty_query_becomes_default Demo.llm Demo.browser Demo.Agent
           (Demo.world [u " 2"; u "  "]) (u " 2") (u "  ") []).
  - reflexivity.
  - by_computation.
  - by_computation.
Defined.

(** The model client fails with a [RuntimeError], and with a cancellation. *)
Lemma summarize_failure_logged_and_absorbed_witness :
  result (summarize (Demo.failing_summarizer Demo.RuntimeError))
    (Demo.world []) = Raise Demo.RuntimeError /\
  (if exc_is_Exception Demo.RuntimeError
   then exists pre,
          new_events (summarize (Demo.failing_summarizer Demo.RuntimeError))
            (Demo.world [])
            = pre ++ [ELog ERROR
                        ((u "❌ 要約処理中に致命的なエラーが発生しました:" +++ newline)
                         +++ exc_traceback Demo.RuntimeError)] /\
          filter is_error_record pre = []
   else filter is_error_record
          (new_events (summarize (Demo.failing_summarizer Demo.RuntimeError))
             (Demo.world [])) = []) /\
  (terminations
     (new_events (loop_body (Demo.llm_raising Demo.RuntimeError) Demo.browser
                    Demo.Agent) (Demo.world [u "2"; []])) = [] /\
   if exc_is_Exception Demo.RuntimeError
   then result (loop_body (Demo.llm_raising Demo.RuntimeError) Demo.browser
                  Demo.Agent) (Demo.world [u "2"; []]) = Ret Continue /\
        exists pre,
          new_events (loop_body (Demo.llm_raising Demo.RuntimeError)
                        Demo.browser Demo.Agent) (Demo.world [u "2"; []])
            = pre ++ [ELog ERROR
                        ((u "❌ 要約処理中に致命的なエラーが発生しました:" +++ newline)
                         +++ exc_traceback Demo.RuntimeError);
                      EPrint (u "要約中にエラーが発生しました: "
                              +++ exc_str Demo.RuntimeError);
                      EPrint (u "※まだブラウザが開いていない場合、先に「1」で何らかのタスク（例: 'Googleを開いて'）を実行してください。")]
   else result (loop_body (Demo.llm_raising Demo.RuntimeError) Demo.browser
                  Demo.Agent) (Demo.world [u "2"; []])
          = Raise Demo.RuntimeError /\
        exists evs,
          new_events (loop_body (Demo.llm_raising Demo.RuntimeError)
                        Demo.browser Demo.Agent) (Demo.world [u "2"; []])
            = query_events (u "2") [] ++ evs /\
          Forall (fun x => is_summarizer_event x = true) evs) /\
  (terminations
     (new_events (loop_body (Demo.llm_raising Demo.CancelledError)
                    Demo.browser Demo.Agent) (Demo.world [u "2"; []])) = [] /\
   if exc_is_Exception Demo.CancelledError
   then result (loop_body (Demo.llm_raising Demo.CancelledError) Demo.browser
                  Demo.Agent) (Demo.world [u "2"; []]) = Ret Continue /\
        exists pre,
          new_events (loop_body (Demo.llm_raising Demo.CancelledError)
                        Demo.browser Demo.Agent) (Demo.world [u "2"; []])
            = pre ++ [ELog ERROR
                        ((u "❌ 要約処理中に致命的なエラーが発生しました:" +++ newline)
                         +++ exc_traceback Demo.CancelledError);
                      EPrint (u "要約中にエラーが発生しました: "
                              +++ exc_str Demo.CancelledError);
                      EPrint (u "※まだブラウザが開いていない場合、先に「1」で何らかのタスク（例: 'Googleを開いて'）を実行してください。")]
   else result (loop_body (Demo.llm_raising Demo.CancelledError) Demo.browser
                  Demo.Agent) (Demo.world [u "2"; []])
          = Raise Demo.CancelledError /\
        exists evs,
          new_events (loop_body (Demo.llm_raising Demo.CancelledError)
                        Demo.browser Demo.Agent) (Demo.world [u "2"; []])
            = query_events (u "2") [] ++ evs /\
          Forall (fun x => is_summarizer_event x = true) evs).
Proof.
  assert (H1 : result (summarize (Demo.failing_summarizer Demo.RuntimeError))
                 (Demo.world []) = Raise Demo.RuntimeError).
  { apply (proj1 summarize_failure_logged_and_absorbed
             (Demo.failing_summarizer Demo.RuntimeError) (Demo.world [])
             Demo.RuntimeError).
    by_computation. }
  split; [exact H1|]. split; [|split].
  - exact (proj1 (proj2 summarize_failure_logged_and_absorbed)
             (Demo.failing_summarizer Demo.RuntimeError) (Demo.world [])
             Demo.RuntimeError H1).
  - apply (proj2 (proj2 summarize_failure_logged_and_absorbed)
             (Demo.llm_raising Demo.RuntimeError) Demo.browser Demo.Agent
             (Demo.world [u "2"; []]) (u "2") [] [] Demo.RuntimeError).
    + reflexivity.
    + by_computation.
    + by_computation.
  - apply (proj2 (proj2 summarize_failure_logged_and_absorbed)
             (Demo.llm_raising Demo.CancelledError) Demo.browser Demo.Agent
             (Demo.world [u "2"; []]) (u "2") [] [] Demo.CancelledError).
    + reflexivity.
    + by_computation.
    + by_computation.
Defined.

(** A handle with [kill] and [stop], one whose [kill] fails, with a
    [RuntimeError] and with a cancellation, and [q]. *)
Lemma shutdown_terminates_handle_once_witness :
  (exists o, terminations (new_events (shutdown Demo.browser) (Demo.world []))
             = [EKill o]) /\
  (if exc_is_Exception Demo.RuntimeError
   then result (shutdown (Demo.browser_failing_kill Demo.RuntimeError))
          (Demo.world []) = Ret tt /\
        In (EPrint (u "ブラウザの終了中にエラーが発生しました: "
                    +++ exc_str Demo.RuntimeError))
           (new_events (shutdown (Demo.browser_failing_kill Demo.RuntimeError))
              (Demo.world []))
   else result (shutdown (Demo.browser_failing_kill Demo.RuntimeError))
          (Demo.world []) = Raise Demo.RuntimeError /\
        new_events (shutdown (Demo.browser_failing_kill Demo.RuntimeError))
          (Demo.world [])
          = [EPrint (u "ブラウザを閉じています...");
             EKill (Raise Demo.RuntimeError)]) /\
  (if exc_is_Exception Demo.CancelledError
   then result (shutdown (Demo.browser_failing_kill Demo.CancelledError))
          (Demo.world []) = Ret tt /\
        In (EPrint (u "ブラウザの終了中にエラーが発生しました: "
                    +++ exc_str Demo.CancelledError))
           (new_events
              (shutdown (Demo.browser_failing_kill Demo.CancelledError))
              (Demo.world []))
   else result (shutdown (Demo.browser_failing_kill Demo.CancelledError))
          (Demo.world []) = Raise Demo.CancelledError /\
        new_events (shutdown (Demo.browser_failing_kill Demo.CancelledError))
          (Demo.world [])
          = [EPrint (u "ブラウザを閉じています...");
             EKill (Raise Demo.CancelledError)]) /\
  session Demo.llm Demo.browser Demo.Agent 1 (Demo.world [u "q"; u "1"])
    = Some (shutdown Demo.browser
              (mkWorld ([] ++ menu_events (Ret (u "q"))
                        ++ [EPrint (u "終了します。")])
                 [u "1"] None)) /\
  (exists r w',
      session Demo.llm Demo.browser Demo.Agent 3 (Demo.world [u "q"; u "1"])
        = Some (r, w') /\
      length (terminations
                (skipn (length (trace (Demo.world [u "q"; u "1"])))
                   (trace w'))) <= 1 /\
      (kill Demo.browser <> None \/ stop Demo.browser <> None ->
       length (terminations
                 (skipn (length (trace (Demo.world [u "q"; u "1"])))
                    (trace w'))) = 1)).
Proof.
  split; [|split; [|split; [|split]]].
  - apply (proj1 (proj1 shutdown_terminates_handle_once Demo.browser
                    (Demo.world [])) (fun _ => Ret tt)).
    reflexivity.
  - apply (proj1 (proj2 (proj2 (proj2
             (proj1 shutdown_terminates_handle_once
                (Demo.browser_failing_kill Demo.RuntimeError)
                (Demo.world [])))))
             (EKill (Raise Demo.RuntimeError)) Demo.RuntimeError).
    + by_computation.
    + reflexivity.
  - apply (proj1 (proj2 (proj2 (proj2
             (proj1 shutdown_terminates_handle_once
                (Demo.browser_failing_kill Demo.CancelledError)
                (Demo.world [])))))
             (EKill (Raise Demo.CancelledError)) Demo.CancelledError).
    + by_computation.
    + reflexivity.
  - apply (proj1 (proj2 shutdown_terminates_handle_once)
             Demo.llm Demo.browser Demo.Agent 0
             (Demo.world [u "q"; u "1"]) (u "q") [u "1"]).
    + reflexivity.
    + by_computation.
  - apply (proj2 (proj2 shutdown_terminates_handle_once)
             Demo.llm Demo.browser Demo.Agent 3 (Demo.world [u "q"; u "1"])).
    simpl. lia.
Defined.

(* ===================================================================== *)
(** ** Where the wording of a claim goes too far *)
(* ===================================================================== *)

(** A cancellation
    ([asyncio.CancelledError], not an [Exception]) raised by the model call
    is a failed step, yet no error record is logged, the pass of the loop
    raises instead of returning to the menu, and the session's shutdown
    block terminates the browser handle. *)
Lemma cancelled_summarize_run :
  In Demo.CancelledError
     (step_failures
        (new_events (summarize (Demo.failing_summarizer Demo.CancelledError))
           (Demo.world []))) /\
  filter is_error_record
    (new_events (summarize (Demo.failing_summarizer Demo.CancelledError))
       (Demo.world [])) = [] /\
  result (loop_body (Demo.llm_raising Demo.CancelledError) Demo.browser
            Demo.Agent) (Demo.world [u "2"; []])
    = Raise Demo.CancelledError /\
  exists w',
    session (Demo.llm_raising Demo.CancelledError) Demo.browser Demo.Agent 3
      (Demo.world [u "2"; []]) = Some (Raise Demo.CancelledError, w') /\
    terminations (trace w') = [EKill (Ret tt)].
Proof.
  split; [by_computation|]. split; [by_computation|].
  split; [by_computation|].
  eexists. split; vm_compute; reflexivity.
Qed.

(** A cancellation raised by [kill]
    leaves the shutdown block: nothing is printed after the call and the
    exception goes on to the caller of [main]. *)
Lemma cancelled_kill_run :
  result (shutdown (Demo.browser_failing_kill Demo.CancelledError))
    (Demo.world []) = Raise Demo.CancelledError /\
  new_events (shutdown (Demo.browser_failing_kill Demo.CancelledError))
    (Demo.world [])
    = [EPrint closing_message; EKill (Raise Demo.CancelledError)] /\
  exists w',
    session Demo.llm (Demo.browser_failing_kill Demo.CancelledError)
      Demo.Agent 2 (Demo.world [u "q"])
      = Some (Raise Demo.CancelledError, w').
Proof.
  split; [by_computation|]. split; [by_computation|].
  eexists. vm_compute. reflexivity.
Qed.

(** The line [q ] (with a trailing space) is a string other than [1], [2],
    [q] and ends the loop, and the line [ 1] runs an agent: the choice is
    compared after stripping. *)
Lemma padded_choice_run :
  u "q " <> u "1" /\ u "q " <> u "2" /\ u "q " <> u "q" /\
  result (loop_body Demo.llm Demo.browser Demo.Agent) (Demo.world [u "q "])
    = Ret Break /\
  (exists w',
      session Demo.llm Demo.browser Demo.Agent 2 (Demo.world [u "q "])
        = Some (Ret tt, w') /\
      terminations (trace w') = [EKill (Ret tt)]) /\
  u " 1" <> u "1" /\ u " 1" <> u "2" /\ u " 1" <> u "q" /\
  In (EAgentRun (u "検索して") (Ret tt))
     (new_events (loop_body Demo.llm Demo.browser Demo.Agent)
        (Demo.world [u " 1"; u "検索して"])).
Proof.
  split; [differ|]. split; [differ|]. split; [differ|].
  split; [by_computation|].
  split; [eexists; split; vm_compute; reflexivity|].
  split; [differ|]. split; [differ|]. split; [differ|].
  by_computation.
Qed.

(** C2 as worded, for every exception, does not hold: neither what it says
    of the summarizer nor what it says of the loop survives a cancellation
    raised by the model call. *)
Lemma cancelled_summarize_not_logged :
  ~ (forall (self : SituationSummarizer) (w : World) (e : PyExc),
        In e (step_failures (new_events (summarize self) w)) ->
        result (summarize self) w = Raise e /\
        exists pre,
          new_events (summarize self) w
            = pre ++ [ELog ERROR (fatal_error_prefix +++ exc_traceback e)])
  /\
  ~ (forall (llm : BaseChatModel) (browser : BrowserSession) (Agent : AgentLib)
            (w : World) (line query : pystr) (rest : list pystr) (e : PyExc),
        stdin w = line :: query :: rest ->
        strip line = u "2" ->
        In e (step_failures (new_events (loop_body llm browser Agent) w)) ->
        result (loop_body llm browser Agent) w = Ret Continue).
Proof.
  destruct cancelled_summarize_run as (Hin & Hlog & Hres & _).
  split.
  - intros H.
    destruct (H _ _ _ Hin) as (_ & pre & Hpre).
    rewrite Hpre, filter_app in Hlog. simpl in Hlog.
    destruct (filter is_error_record pre); discriminate Hlog.
  - intros H.
    specialize (H (Demo.llm_raising Demo.CancelledError) Demo.browser
                  Demo.Agent (Demo.world [u "2"; []]) (u "2") [] []
                  Demo.CancelledError eq_refl).
    rewrite Hres in H. discriminate H; by_computation.
Qed.

(** C7 as worded, for every exception raised during termination, does not
    hold: a cancellation raised by [kill] is propagated. *)
Lemma kill_cancellation_propagates :
  ~ (forall (browser : BrowserSession) (w : World) (ev : event) (e : PyExc),
        In ev (terminations (new_events (shutdown browser) w)) ->
        termination_outcome ev = Raise e ->
        result (shutdown browser) w = Ret tt).
Proof.
  intros H. destruct cancelled_kill_run as (Hres & Hnew & _).
  specialize (H (Demo.browser_failing_kill Demo.CancelledError)
                (Demo.world []) (EKill (Raise Demo.CancelledError))
                Demo.CancelledError).
  rewrite Hres, Hnew in H. discriminate H.
  - left. reflexivity.
  - reflexivity.
Qed.

(** C8 as worded, for every input string other than [1], [2] and [q], does
    not hold: the line [q ] ends the loop. *)
Lemma padded_choice_is_dispatched :
  ~ (forall (llm : BaseChatModel) (browser : BrowserSession) (Agent : AgentLib)
            (w : World) (line : pystr) (rest : list pystr),
        stdin w = line :: rest ->
        line <> u "1" -> line <> u "2" -> line <> u "q" ->
        result (loop_body llm browser Agent) w = Ret Continue /\
        new_events (loop_body llm browser Agent) w = menu_events (Ret line)).
Proof.
  intros H. destruct padded_choice_run as (H1 & H2 & Hq & Hres & _).
  destruct (H Demo.llm Demo.browser Demo.Agent (Demo.world [u "q "])
              (u "q ") [] eq_refl H1 H2 Hq) as [Hc _].
  rewrite Hres in Hc. discriminate Hc.
Qed.

(* ===================================================================== *)
(** ** Startup and the whole session *)
(* ===================================================================== *)

(** What [startup] does once the credential is there. *)
Lemma startup_run
    (key : pystr)
    (ChatGoogle : pystr -> pystr -> BaseChatModel)
    (Browser : BrowserProfile -> BrowserSession)
    (BrowserProfile_ : bool -> bool -> bool -> BrowserProfile)
    (w : World) :
  key <> [] ->
  startup (Some key) ChatGoogle Browser BrowserProfile_ w =
  (Ret (ChatGoogle (u "gemini-2.5-flash") key,
        Browser (BrowserProfile_ false true true)),
   mkWorld (trace w ++ banner_events) (stdin w)
     (match browser_profile (Browser (BrowserProfile_ false true true)) with
      | Some p =>
          Some (mkProfile (headless p) (no_viewport p) (keep_alive p) None None)
      | None => None
      end)).
Proof.
  intros Hkey. destruct key as [|c key]; [congruence|].
  unfold startup, unset_window_geometry, banner_events. run_M.
  norm_trace. reflexivity.
Qed.

(** A session with enough fuel: the passes of the loop, none of which asks
    the handle to terminate, then the shutdown block; the session raises what
    the shutdown block raises, and otherwise ends as the loop ended. *)
Lemma session_run
    (llm : BaseChatModel) (browser : BrowserSession) (Agent : AgentLib)
    (fuel : nat) (w : World) :
  length (stdin w) < fuel ->
  exists r evs rest,
    while_True fuel (loop_body llm browser Agent) w
      = Some (r, mkWorld (trace w ++ evs) rest (profile w)) /\
    terminations evs = [] /\
    session llm browser Agent fuel w
      = Some (match shutdown_result browser (trace w ++ evs) with
              | Ret _ => r
              | Raise e => Raise e
              end,
              mkWorld (trace w ++ evs
                       ++ shutdown_events browser (trace w ++ evs))
                rest (profile w)).
Proof.
  intros Hlen.
  destruct (while_True_enough_fuel llm browser Agent w Hlen)
    as (r & evs & rest & Hloop & Hterm).
  exists r, evs, rest. split; [exact Hloop|]. split; [exact Hterm|].
  unfold session. rewrite Hloop. unfold finally_. simpl.
  rewrite shutdown_run. unfold appends. simpl. rewrite <- app_assoc.
  destruct (shutdown_result browser (trace w ++ evs)) as [[]|e]; reflexivity.
Qed.

(** X1.  Without the credential ([GOOGLE_API_KEY] unset or empty) [main]
    raises [ValueError] at once: nothing is printed, no line is read, and
    the browser is neither started nor terminated. *)
Theorem main_without_credential
    (getenv : option pystr)
    (ChatGoogle : pystr -> pystr -> BaseChatModel)
    (Browser : BrowserProfile -> BrowserSession)
    (BrowserProfile_ : bool -> bool -> bool -> BrowserProfile)
    (Agent : BaseChatModel -> BrowserSession -> AgentLib)
    (lines : list pystr) :
  getenv = None \/ getenv = Some [] ->
  main getenv ChatGoogle Browser BrowserProfile_ Agent lines
    = Some (Raise missing_key_error, mkWorld [] lines None).
Proof.
  intros [-> | ->]; reflexivity.
Qed.

(** X2.  With the credential, startup prints the three banner lines, binds
    the model client to [gemini-2.5-flash] and the key, asks for a visible
    browser without viewport that is kept alive, and clears the window size
    and position of the handle's profile while keeping its other settings;
    a handle without profile is left as it is.  No line is read. *)
Theorem startup_clears_window_geometry
    (key : pystr)
    (ChatGoogle : pystr -> pystr -> BaseChatModel)
    (Browser : BrowserProfile -> BrowserSession)
    (BrowserProfile_ : bool -> bool -> bool -> BrowserProfile)
    (w : World) :
  key <> [] ->
  exists w',
    startup (Some key) ChatGoogle Browser BrowserProfile_ w
      = (Ret (ChatGoogle (u "gemini-2.5-flash") key,
              Browser (BrowserProfile_ false true true)), w') /\
    trace w' = trace w ++ banner_events /\
    stdin w' = stdin w /\
    (forall p,
        browser_profile (Browser (BrowserProfile_ false true true)) = Some p ->
        exists p',
          profile w' = Some p' /\
          window_size p' = None /\ window_position p' = None /\
          headless p' = headless p /\ no_viewport p' = no_viewport p /\
          keep_alive p' = keep_alive p) /\
    (browser_profile (Browser (BrowserProfile_ false true true)) = None ->
     profile w' = None).
Proof.
  intros Hkey. eexists. split; [apply (startup_run _ _ _ _ Hkey)|].
  simpl. split; [reflexivity|]. split; [reflexivity|]. split.
  - intros p ->. eexists. split; [reflexivity|]. simpl. auto.
  - intros ->. reflexivity.
Qed.

(** X3.  With the credential, [main] comes to an end on every finite input,
    and it ends through the shutdown block: the banner comes first, the
    closing message is printed, and over the whole run the browser handle is
    asked to terminate at most once (exactly once when it exposes [kill] or
    [stop]). *)
Theorem main_always_shuts_down
    (key : pystr)
    (ChatGoogle : pystr -> pystr -> BaseChatModel)
    (Browser : BrowserProfile -> BrowserSession)
    (BrowserProfile_ : bool -> bool -> bool -> BrowserProfile)
    (Agent : BaseChatModel -> BrowserSession -> AgentLib)
    (lines : list pystr) :
  key <> [] ->
  exists r w' evs,
    main (Some key) ChatGoogle Browser BrowserProfile_ Agent lines
      = Some (r, w') /\
    trace w' = banner_events ++ evs /\
    In (EPrint closing_message) evs /\
    length (terminations (trace w')) <= 1 /\
    (kill (Browser (BrowserProfile_ false true true)) <> None \/
     stop (Browser (BrowserProfile_ false true true)) <> None ->
     length (terminations (trace w')) = 1).
Proof.
  intros Hkey. unfold main.
  rewrite (startup_run _ _ _ (mkWorld [] lines None) Hkey). simpl.
  set (browser := Browser (BrowserProfile_ false true true)).
  set (llm := ChatGoogle (u "gemini-2.5-flash") key).
  match goal with
  | |- context [session _ _ _ _ ?w0] =>
      destruct (@session_run llm browser (Agent llm browser)
                  (S (length lines)) w0) as (r & evs & rest & _ & Ht & Hs);
      [simpl; lia|]
  end.
  rewrite Hs. simpl.
  eexists _, _, (evs ++ shutdown_events browser (banner_events ++ evs)).
  split; [reflexivity|]. simpl. split; [reflexivity|]. split.
  - apply in_or_app. right. unfold shutdown_events. apply in_eq.
  - change (EPrint (mul (u "-") 30)
            :: EPrint (u "browser-use エージェントシステムを起動します")
            :: EPrint (mul (u "-") 30)
            :: evs ++ shutdown_events browser (banner_events ++ evs))
      with (banner_events
            ++ evs ++ shutdown_events browser (banner_events ++ evs)).
    rewrite !terminations_app, Ht, shutdown_events_terminations. simpl.
    unfold termination_call.
    destruct (kill browser) as [k|]; [|destruct (stop browser) as [s|]];
      simpl; split; try lia; auto.
    intros [H|H]; congruence.
Qed.

(** X4.  While the menu loop runs the browser handle is never asked to
    terminate: a session with enough fuel consists of the passes of the loop,
    which contain no termination call and leave the browser profile alone,
    followed by the shutdown block run on the trace the loop left; it raises
    what the shutdown block raises and otherwise ends as the loop ended. *)
Theorem session_shuts_down_after_the_loop
    (llm : BaseChatModel) (browser : BrowserSession) (Agent : AgentLib)
    (fuel : nat) (w : World) :
  length (stdin w) < fuel ->
  exists r_loop evs rest,
    while_True fuel (loop_body llm browser Agent) w
      = Some (r_loop, mkWorld (trace w ++ evs) rest (profile w)) /\
    terminations evs = [] /\
    session llm browser Agent fuel w
      = Some (match shutdown_result browser (trace w ++ evs) with
              | Ret _ => r_loop
              | Raise e => Raise e
              end,
              mkWorld (trace w ++ evs
                       ++ shutdown_events browser (trace w ++ evs))
                rest (profile w)) /\
    (shutdown browser (mkWorld (trace w ++ evs) rest (profile w))
     = (shutdown_result browser (trace w ++ evs),
        mkWorld ((trace w ++ evs) ++ shutdown_events browser (trace w ++ evs))
          rest (profile w))).
Proof.
  intros Hlen.
  destruct (session_run llm browser Agent w Hlen)
    as (r & evs & rest & Hloop & Ht & Hs).
  exists r, evs, rest. split; [exact Hloop|]. split; [exact Ht|].
  split; [exact Hs|]. apply shutdown_run.
Qed.

(** X5.  End of input at the menu prompt: the [EOFError] of [input] is not
    caught by the loop; the shutdown block still runs, and the session then
    raises [EOFError] (or what the shutdown block raised). *)
Theorem end_of_input_shuts_down
    (llm : BaseChatModel) (browser : BrowserSession) (Agent : AgentLib)
    (fuel : nat) (w : World) :
  stdin w = [] ->
  session llm browser Agent (S fuel) w
    = Some (match shutdown_result browser
                    (trace w ++ menu_events (Raise EOFError)) with
            | Ret _ => Raise EOFError
            | Raise e => Raise e
            end,
            appends w (menu_events (Raise EOFError)
                       ++ shutdown_events browser
                            (trace w ++ menu_events (Raise EOFError)))).
Proof.
  intros Hin. unfold session. simpl.
  rewrite (loop_body_eof llm browser Agent w Hin).
  unfold finally_. simpl. rewrite shutdown_run. unfold appends. simpl.
  rewrite <- app_assoc.
  destruct (shutdown_result browser _) as [[]|e]; reflexivity.
Qed.

(* ===================================================================== *)
(** ** Option 1 *)
(* ===================================================================== *)

(** X6.  Option 1 with a task: the agent is run once.  When the run returns
    the pass ends without an error line; when it raises an [Exception] the
    error line with [str(e)] is printed and the loop goes on; an exception
    that is not an [Exception] leaves the loop body, nothing printed after
    the run.  In each case both lines have been read. *)
Theorem agent_failure_keeps_the_loop
    (llm : BaseChatModel) (browser : BrowserSession) (Agent : AgentLib)
    (w : World) (line task : pystr) (rest : list pystr) (o : outcome unit) :
  stdin w = line :: task :: rest ->
  strip line = u "1" ->
  task <> [] ->
  In (EAgentRun task o) (new_events (loop_body llm browser Agent) w) ->
  stdin (snd (loop_body llm browser Agent w)) = rest /\
  match o with
  | Ret _ =>
      result (loop_body llm browser Agent) w = Ret Continue /\
      new_events (loop_body llm browser Agent) w
        = task_events line task ++ [EAgentRun task o]
  | Raise e =>
      if exc_is_Exception e
      then result (loop_body llm browser Agent) w = Ret Continue /\
           new_events (loop_body llm browser Agent) w
             = task_events line task
               ++ [EAgentRun task o;
                   EPrint (u "Agent実行中にエラーが発生しました: " +++ exc_str e)]
      else result (loop_body llm browser Agent) w = Raise e /\
           new_events (loop_body llm browser Agent) w
             = task_events line task ++ [EAgentRun task o]
  end.
Proof.
  intros Hin Hc Hne Hev.
  pose proof (loop_body_task llm browser Agent w Hin Hc Hne) as Hrun.
  cbv zeta in Hrun.
  match type of Hrun with
  | _ = (_, mkWorld (_ ++ ?evs) _ _) =>
      destruct (new_events_of (loop_body llm browser Agent) w evs
                  Hrun eq_refl) as [Hn Hr]
  end.
  rewrite Hrun. simpl. split; [reflexivity|].
  rewrite Hn in Hev. rewrite Hn, Hr. clear Hn Hr Hrun.
  set (o0 := agent_run Agent (trace w ++ task_events line task) task) in *.
  assert (E : o = o0).
  { apply in_app_or in Hev. destruct Hev as [Hev|Hev].
    - unfold task_events, menu_events in Hev. in_inv Hev.
    - simpl in Hev. destruct Hev as [Hev|Hev]; [congruence|].
      unfold agent_error_events in Hev.
      destruct o0 as [[]|e]; [|destruct (exc_is_Exception e)]; in_inv Hev. }
  subst o. unfold absorbed, agent_error_events.
  destruct o0 as [[]|e]; [|destruct (exc_is_Exception e)]; auto.
Qed.

(* ===================================================================== *)
(** ** The query and the prompt *)
(* ===================================================================== *)

Lemma effective_query_nonempty (query : pystr) :
  strip query <> [] -> effective_query query = strip query.
Proof.
  unfold effective_query. destruct (strip query); [congruence|reflexivity].
Qed.

(** X7.  The system prompt gets a query instruction exactly when the query
    is neither empty nor the default question; the instruction then quotes
    the query as it is. *)
Theorem query_instruction_empty_iff (user_query : pystr) :
  (query_instruction user_query = [] <->
   user_query = [] \/ user_query = default_query) /\
  (user_query <> [] -> user_query <> default_query ->
   query_instruction user_query
     = newline +++ newline +++ u "ユーザーからは「" +++ user_query
       +++ u "」という関心・疑問が提示されています。これに対する回答を含めて要約してください。").
Proof.
  unfold query_instruction.
  destruct user_query as [|c q].
  { simpl. split; [split; auto|congruence]. }
  change (truthy (c :: q)) with true. cbn [andb].
  destruct (eqb (c :: q) default_query) eqn:E; cbn [negb].
  - apply eqb_eq in E. split; [split; auto|congruence].
  - apply eqb_neq in E. split; [|reflexivity]. split.
    + unfold cat, newline. simpl. discriminate.
    + intros [H|H]; [discriminate H|contradiction].
Qed.

(** X8.  Option 2 with a query that is not blank: the summarizer is called
    with the query stripped of surrounding white space, and the system
    message sent to the model is the prompt built for that stripped query. *)
Theorem query_is_passed_stripped
    (llm : BaseChatModel) (browser : BrowserSession) (Agent : AgentLib)
    (w : World) (line query : pystr) (rest : list pystr) :
  stdin w = line :: query :: rest ->
  strip line = u "2" ->
  strip query <> [] ->
  summarize_calls (new_events (loop_body llm browser Agent) w)
    = [strip query] /\
  (forall messages,
      In messages (sent_messages (new_events (loop_body llm browser Agent) w)) ->
      exists content,
        messages = [SystemMessage
                      (system_prompt (query_instruction (strip query)));
                    UserMessage content]).
Proof.
  intros Hin Hc Hq.
  destruct (loop_body_query llm browser Agent w Hin Hc)
    as (r & evs & Hpath & Hrun).
  match type of Hrun with
  | _ = (_, mkWorld (_ ++ ?new) _ _) =>
      destruct (new_events_of (loop_body llm browser Agent) w new
                  Hrun eq_refl) as [Hn _]
  end.
  rewrite Hn. rewrite (effective_query_nonempty query Hq) in Hpath.
  destruct (query_events_quiet line query) as (_ & _ & Qs & Qc).
  destruct (summary_events_quiet r) as (_ & _ & Ss & Sc).
  split.
  - rewrite !summarize_calls_app, Qc, Sc, (path_summarize_calls Hpath).
    now rewrite (effective_query_nonempty query Hq).
  - intros messages Hm.
    rewrite !sent_messages_app, Qs, Ss, app_nil_r in Hm. simpl in Hm.
    destruct (path_sent Hpath) as [H0|(state & ui & _ & _ & Hs & _)].
    + rewrite H0 in Hm. contradiction.
    + rewrite Hs in Hm. simpl in Hm.
      destruct Hm as [Hm|Hm]; [subst messages|contradiction].
      unfold messages_of. simpl. eauto.
Qed.

(* ===================================================================== *)
(** ** More on the summarizer *)
(* ===================================================================== *)

(** The call of the model client in a path, and what follows it. *)
Lemma path_invoked (self : SituationSummarizer) (tr : list event)
    (r : outcome SituationSummary) (evs : list event)
    (m : list Message) (o : outcome Response) :
  summarize_path self tr r evs ->
  In (EInvoke m o) evs ->
  exists state ui,
    m = messages_of self state ui /\
    evs = before_invoke state
          ++ EInvoke m o
             :: match o with
                | Ret _ => [log_done]
                | Raise e => error_log e
                end /\
    r = match o with
        | Ret response =>
            Ret (mkSituationSummary (reply_text response)
                   placeholder placeholder)
        | Raise e => Raise e
        end.
Proof.
  intros Hpath Hin.
  assert (Hs : In m (sent_messages evs)).
  { apply in_sent_messages. eauto. }
  destruct Hpath as [e H|st e H1 H2|st ui e H1 H2 H3|st ui resp H1 H2 H3].
  - rewrite sent_messages_app in Hs.
    destruct (error_log_quiet e) as (E & _). rewrite E in Hs.
    simpl in Hs. contradiction.
  - rewrite !sent_messages_app in Hs.
    destruct (error_log_quiet e) as (E & _). rewrite E in Hs.
    destruct (render_events_quiet st) as (E' & _). rewrite E' in Hs.
    simpl in Hs. contradiction.
  - apply in_app_or in Hin. destruct Hin as [Hin|Hin].
    { assert (Hb : In m (sent_messages (before_invoke st))).
      { apply in_sent_messages. eauto. }
      rewrite before_invoke_sent in Hb. contradiction. }
    simpl in Hin. destruct Hin as [Hin|Hin].
    + injection Hin as <- <-. exists st, ui. auto.
    + unfold error_log in Hin. destruct (exc_is_Exception e); in_inv Hin.
  - apply in_app_or in Hin. destruct Hin as [Hin|Hin].
    { assert (Hb : In m (sent_messages (before_invoke st))).
      { apply in_sent_messages. eauto. }
      rewrite before_invoke_sent in Hb. contradiction. }
    simpl in Hin. destruct Hin as [Hin|Hin].
    + injection Hin as <- <-. exists st, ui. auto.
    + unfold log_done in Hin. in_inv Hin.
Qed.

(** X9.  Option 2, when the model client answers: the pass ends normally and
    its last four lines of output are the separator, the heading, the
    separator and the reply text of the response, unchanged. *)
Theorem reply_is_printed_verbatim
    (llm : BaseChatModel) (browser : BrowserSession) (Agent : AgentLib)
    (w : World) (line query : pystr) (rest : list pystr)
    (messages : list Message) (response : Response) :
  stdin w = line :: query :: rest ->
  strip line = u "2" ->
  In (EInvoke messages (Ret response))
     (new_events (loop_body llm browser Agent) w) ->
  result (loop_body llm browser Agent) w = Ret Continue /\
  exists pre,
    new_events (loop_body llm browser Agent) w
      = pre ++ [EInvoke messages (Ret response);
                log_done;
                EPrint (newline +++ mul (u "-") 30);
                EPrint (u "現在の画面の状況要約:");
                EPrint (mul (u "-") 30);
                EPrint (reply_text response)].
Proof.
  intros Hin Hc Hev.
  destruct (loop_body_query llm browser Agent w Hin Hc)
    as (r & evs & Hpath & Hrun).
  match type of Hrun with
  | _ = (_, mkWorld (_ ++ ?new) _ _) =>
      destruct (new_events_of (loop_body llm browser Agent) w new
                  Hrun eq_refl) as [Hn Hr]
  end.
  rewrite Hn in *. rewrite Hr. clear Hn Hr Hrun.
  assert (Hevs : In (EInvoke messages (Ret response)) evs).
  { apply in_app_or in Hev. destruct Hev as [Hev|Hev].
    { unfold query_events, menu_events in Hev. in_inv Hev. }
    apply in_app_or in Hev. destruct Hev as [Hev|Hev]; [exact Hev|].
    unfold summary_events in Hev.
    destruct r as [s|e]; [|destruct (exc_is_Exception e)]; in_inv Hev. }
  destruct (path_invoked _ _ Hpath Hevs) as (state & ui & _ & -> & ->).
  split; [reflexivity|].
  exists (query_events line query ++ before_invoke state).
  simpl. rewrite <- !app_assoc. reflexivity.
Qed.

(** X10.  When the page-state fetch or the rendering of the UI list raises,
    the model client is never called, and [summarize] raises that
    exception. *)
Theorem failed_step_never_reaches_model
    (self : SituationSummarizer) (w : World) (e : PyExc) :
  In (EGetState (Raise e)) (new_events (summarize self) w) \/
  In (ELlmRepresentation (Raise e)) (new_events (summarize self) w) ->
  sent_messages (new_events (summarize self) w) = [] /\
  result (summarize self) w = Raise e.
Proof.
  intros Hin.
  destruct (summarize_run self w) as (r & evs & _ & Hnew & Hr & Hpath).
  rewrite Hnew in *. rewrite Hr. clear Hnew Hr.
  assert (B : forall st ui x,
             render_ui st = Ret ui ->
             (In (EGetState (Raise e)) (before_invoke st ++ x) \/
              In (ELlmRepresentation (Raise e)) (before_invoke st ++ x)) ->
             In (EGetState (Raise e)) x \/ In (ELlmRepresentation (Raise e)) x).
  { intros st ui x Hui [H|H]; apply in_app_or in H;
      (destruct H as [H|H]; [exfalso|auto]);
      unfold before_invoke, render_events, warn_events, log_1, log_2, log_3,
        log_4 in H;
      unfold render_ui in Hui;
      destruct (dom_state st) as [[[[t|t]|]]|]; try discriminate Hui;
      destruct (screenshot_truthy st); in_inv H. }
  destruct Hpath as [e' H|st e' H1 H2|st ui e' H1 H2 H3|st ui resp H1 H2 H3].
  - rewrite sent_messages_app.
    destruct (error_log_quiet e') as (-> & _). split; [reflexivity|].
    unfold error_log, log_1 in Hin.
    destruct Hin as [Hin|Hin]; destruct (exc_is_Exception e'); in_inv Hin;
      congruence.
  - rewrite !sent_messages_app.
    destruct (error_log_quiet e') as (-> & _).
    destruct (render_events_quiet st) as (-> & _). split; [reflexivity|].
    unfold error_log, render_events, log_1, log_2 in Hin.
    unfold render_ui in H2.
    destruct (dom_state st) as [[[[t|t]|]]|]; try discriminate H2;
      injection H2 as ->;
      destruct Hin as [Hin|Hin]; destruct (exc_is_Exception e'); in_inv Hin;
      congruence.
  - exfalso. apply (B st ui _ H2) in Hin.
    unfold error_log in Hin.
    destruct Hin as [Hin|Hin]; destruct (exc_is_Exception e'); in_inv Hin.
  - exfalso. apply (B st ui _ H2) in Hin.
    unfold log_done in Hin. destruct Hin as [Hin|Hin]; in_inv Hin.
Qed.

(** X11.  [summarize] keeps to itself: it reads no input, leaves the browser
    profile alone, and adds to the trace only its log records and its three
    calls, so it prints nothing on the console and never asks the browser
    handle to terminate. *)
Theorem summarizer_is_confined (self : SituationSummarizer) (w : World) :
  stdin (snd (summarize self w)) = stdin w /\
  profile (snd (summarize self w)) = profile w /\
  trace (snd (summarize self w))
    = trace w ++ new_events (summarize self) w /\
  Forall (fun e => is_summarizer_event e = true)
         (new_events (summarize self) w) /\
  filter is_console_event (new_events (summarize self) w) = [] /\
  terminations (new_events (summarize self) w) = [].
Proof.
  destruct (summarize_run self w) as (r & evs & Hrun & Hnew & _ & Hpath).
  rewrite Hnew, Hrun. simpl.
  pose proof (path_events_kind Hpath) as K.
  repeat split; auto.
  - apply filter_none with (P := is_summarizer_event); [|exact K].
    intros []; simpl; congruence.
  - exact (path_terminations Hpath).
Qed.

(** X12.  An exception that is not an [Exception] raised by a step of
    [summarize] goes through unlogged: [summarize] raises it and writes no
    error record; in the loop, option 2 then raises it as well, printing
    neither the error line nor the hint. *)
Theorem non_exception_passes_unlogged :
  (forall (self : SituationSummarizer) (w : World) (e : PyExc),
      In e (step_failures (new_events (summarize self) w)) ->
      exc_is_Exception e = false ->
      result (summarize self) w = Raise e /\
      filter is_error_record (new_events (summarize self) w) = []) /\
  (forall (llm : BaseChatModel) (browser : BrowserSession) (Agent : AgentLib)
          (w : World) (line query : pystr) (rest : list pystr) (e : PyExc),
      stdin w = line :: query :: rest ->
      strip line = u "2" ->
      In e (step_failures (new_events (loop_body llm browser Agent) w)) ->
      exc_is_Exception e = false ->
      result (loop_body llm browser Agent) w = Raise e /\
      exists evs,
        new_events (loop_body llm browser Agent) w
          = query_events line query ++ evs /\
        Forall (fun x => is_summarizer_event x = true) evs).
Proof.
  assert (P : forall self tr r evs e,
             summarize_path self tr r evs ->
             In e (step_failures evs) ->
             exc_is_Exception e = false ->
             r = Raise e /\ filter is_error_record evs = []).
  { intros self tr r evs e Hpath Hin He.
    rewrite (path_failures Hpath) in Hin.
    destruct r as [s|e']; simpl in Hin; [contradiction|].
    destruct Hin as [Hin|Hin]; [subst e'|contradiction].
    split; [reflexivity|].
    destruct (path_raise_ends Hpath) as (pre & -> & Hpre).
    unfold error_log. rewrite He, app_nil_r.
    now apply no_error_record. }
  split.
  - intros self w e Hin He.
    destruct (summarize_run self w) as (r & evs & _ & Hnew & Hr & Hpath).
    rewrite Hnew in *. rewrite Hr.
    exact (P self (trace w) r evs e Hpath Hin He).
  - intros llm browser Agent w line query rest e Hstdin Hc Hin He.
    destruct (loop_body_query llm browser Agent w Hstdin Hc)
      as (r & evs & Hpath & Hrun).
    match type of Hrun with
    | _ = (_, mkWorld (_ ++ ?new) _ _) =>
        destruct (new_events_of (loop_body llm browser Agent) w new
                    Hrun eq_refl) as [Hn Hr]
    end.
    rewrite Hn in *. rewrite Hr.
    destruct (query_events_quiet line query) as (_ & Qf & _ & _).
    destruct (summary_events_quiet r) as (_ & Sf & _ & _).
    rewrite !step_failures_app, Qf, Sf, app_nil_r in Hin. simpl in Hin.
    destruct (P _ _ r evs e Hpath Hin He) as (-> & _).
    unfold absorbed, summary_events. rewrite He.
    split; [reflexivity|]. exists evs. rewrite app_nil_r.
    split; [reflexivity|exact (path_events_kind Hpath)].
Qed.

(* ===================================================================== *)
(** ** More on the shutdown block *)
(* ===================================================================== *)

Lemma closed_message_distinct :
  closed_message <> closing_message /\
  closed_message <> no_method_message /\
  forall s, closed_message <> shutdown_error_prefix +++ s.
Proof.
  split; [differ|]. split; [differ|].
  intros s H. unfold cat in H. vm_compute in H. discriminate H.
Qed.

(** X13.  The shutdown block prints that the system closed normally exactly
    when no termination call raised, which includes the case of a handle
    that exposes no termination method at all; and when the handle exposes
    [kill], [stop] is never called, whether [kill] succeeds or not. *)
Theorem shutdown_reports_success_iff (browser : BrowserSession) (w : World) :
  (In (EPrint closed_message) (new_events (shutdown browser) w) <->
   forall ev, In ev (terminations (new_events (shutdown browser) w)) ->
              termination_outcome ev = Ret tt) /\
  (kill browser <> None ->
   forall o, ~ In (EStop o) (new_events (shutdown browser) w)).
Proof.
  destruct closed_message_distinct as (D1 & D2 & D3).
  pose proof (shutdown_run browser w) as Hrun.
  destruct (new_events_appends (shutdown browser) Hrun) as [Hn _].
  rewrite Hn. clear Hn Hrun.
  rewrite shutdown_events_terminations.
  unfold shutdown_events, termination_call.
  destruct (kill browser) as [k|]; [|destruct (stop browser) as [s|]]; simpl.
  - destruct (k _) as [[]|e]; simpl; (split; [split|]).
    + intros _ ev [<-|[]]. reflexivity.
    + intros _. right. right. left. reflexivity.
    + intros _ o H. in_inv H.
    + intros H. exfalso. destruct (exc_is_Exception e); in_inv H;
        try (injection H as H; exact (D3 _ (eq_sym H)));
        try (injection H as H; exact (D1 (eq_sym H))).
    + intros H. specialize (H _ (or_introl eq_refl)). discriminate H.
    + intros _ o H. destruct (exc_is_Exception e); in_inv H.
  - destruct (s _) as [[]|e]; simpl; (split; [split|]).
    + intros _ ev [<-|[]]. reflexivity.
    + intros _. right. right. left. reflexivity.
    + intros H. congruence.
    + intros H. exfalso. destruct (exc_is_Exception e); in_inv H;
        try (injection H as H; exact (D3 _ (eq_sym H)));
        try (injection H as H; exact (D1 (eq_sym H))).
    + intros H. specialize (H _ (or_introl eq_refl)). discriminate H.
    + intros H. congruence.
  - split; [split|].
    + intros _ ev [].
    + intros _. right. right. left. reflexivity.
    + intros H. congruence.
Qed.

(* ===================================================================== *)
(** ** The entry point of the summarizer module *)
(* ===================================================================== *)

Lemma summarize_page_state_run
    (query : pystr) (session : BrowserSession) (llm : BaseChatModel)
    (w : World) :
  exists r evs,
    summarize_path (mkSummarizer session llm query)
      (trace w ++ [ESummarize query]) r evs /\
    summarize_page_state_from_session query session llm w
      = (match r with
         | Ret s => Ret (raw_response s)
         | Raise e => Raise e
         end,
         appends w (ESummarize query :: evs)).
Proof.
  unfold summarize_page_state_from_session. run_M.
  match goal with
  | |- context [summarize ?self ?w0] =>
      destruct (summarize_run self w0) as (r & evs & Hrun & _ & _ & Hpath);
      rewrite Hrun
  end.
  exists r, evs. split; [exact Hpath|].
  unfold appends. simpl. norm_trace. destruct r; reflexivity.
Qed.

(** X14.  [summarize_page_state_from_session] builds the summarizer for the
    query it is given and returns the reply text of the model's response,
    and nothing else: it returns a text only when the model client answered,
    and that text is the reply text of that answer. *)
Theorem summarize_page_state_returns_reply
    (query : pystr) (session : BrowserSession) (llm : BaseChatModel)
    (w : World) :
  (forall messages response,
      In (EInvoke messages (Ret response))
         (new_events (summarize_page_state_from_session query session llm) w)
      -> result (summarize_page_state_from_session query session llm) w
         = Ret (reply_text response)) /\
  (forall text,
      result (summarize_page_state_from_session query session llm) w
        = Ret text ->
      exists messages response,
        In (EInvoke messages (Ret response))
           (new_events (summarize_page_state_from_session query session llm) w)
        /\ text = reply_text response) /\
  (forall messages o,
      In (EInvoke messages o)
         (new_events (summarize_page_state_from_session query session llm) w)
      -> exists content,
           messages = [SystemMessage (system_prompt (query_instruction query));
                       UserMessage content]).
Proof.
  destruct (summarize_page_state_run query session llm w)
    as (r & evs & Hpath & Hrun).
  destruct (new_events_appends _ Hrun) as [Hn Hr].
  rewrite Hn, Hr. clear Hn Hr Hrun.
  split; [|split].
  - intros messages response [H|H]; [discriminate H|].
    destruct (path_invoked _ _ Hpath H) as (state & ui & _ & _ & ->).
    reflexivity.
  - intros text Ht. destruct r as [s|e]; [|discriminate Ht].
    injection Ht as <-.
    inversion Hpath as [| | |state ui resp H1 H2 H3 E1 E2]; subst.
    exists (messages_of (mkSummarizer session llm query) state ui), resp.
    split; [|reflexivity].
    right. apply in_or_app. right. apply in_eq.
  - intros messages o [H|H]; [discriminate H|].
    destruct (path_invoked _ _ Hpath H) as (state & ui & -> & _ & _).
    unfold messages_of. simpl. eauto.
Qed.

(* ===================================================================== *)
(** ** More on the menu *)
(* ===================================================================== *)

(** X15.  Every pass of the loop starts by displaying the six menu lines and
    asking for the choice, whatever the input; the prompt ends in [EOFError]
    exactly when no line is left, and the pass then raises it. *)
Theorem every_pass_shows_the_menu
    (llm : BaseChatModel) (browser : BrowserSession) (Agent : AgentLib)
    (w : World) :
  exists o evs,
    new_events (loop_body llm browser Agent) w = menu_events o ++ evs /\
    match stdin w with
    | [] => o = Raise EOFError /\ evs = [] /\
            result (loop_body llm browser Agent) w = Raise EOFError
    | line :: _ => o = Ret line
    end.
Proof.
  assert (G : forall r w' o evs,
             loop_body llm browser Agent w = (r, w') ->
             trace w' = trace w ++ menu_events o ++ evs ->
             new_events (loop_body llm browser Agent) w = menu_events o ++ evs
             /\ result (loop_body llm browser Agent) w = r).
  { intros r w' o evs H1 H2. exact (new_events_of _ w _ H1 H2). }
  destruct (stdin w) as [|line rest] eqn:Hin.
  { exists (Raise EOFError), [].
    destruct (G _ _ (Raise EOFError) [] (loop_body_eof llm browser Agent w Hin))
      as [Hn Hr]; [unfold appends; cbn [trace]; now rewrite app_nil_r|].
    auto. }
  exists (Ret line).
  destruct (eqb (strip line) (u "q")) eqn:Eq.
  { apply eqb_eq in Eq. eexists.
    split; [|reflexivity].
    apply (G _ _ _ _ (loop_body_quit llm browser Agent w Hin Eq)).
    reflexivity. }
  destruct (eqb (strip line) (u "1")) eqn:E1.
  { apply eqb_eq in E1. destruct rest as [|task rest].
    { eexists. split; [|reflexivity].
      apply (G _ _ _ _ (loop_body_task_eof llm browser Agent w Hin E1)).
      reflexivity. }
    destruct task as [|c0 task].
    { eexists. split; [|reflexivity].
      apply (G _ _ _ _ (loop_body_task_empty llm browser Agent w Hin E1)).
      reflexivity. }
    assert (Hne : c0 :: task <> []) by discriminate.
    eexists. split; [|reflexivity].
    apply (G _ _ _ _ (loop_body_task llm browser Agent w Hin E1 Hne)).
    cbn [trace]. unfold task_events. rewrite <- !app_assoc. reflexivity. }
  destruct (eqb (strip line) (u "2")) eqn:E2.
  { apply eqb_eq in E2. destruct rest as [|query rest].
    { eexists. split; [|reflexivity].
      apply (G _ _ _ _ (loop_body_query_eof llm browser Agent w Hin E2)).
      reflexivity. }
    destruct (loop_body_query llm browser Agent w Hin E2)
      as (r & evs & Hpath & Hrun).
    eexists. split; [|reflexivity].
    apply (G _ _ _ _ Hrun).
    cbn [trace]. unfold query_events. rewrite <- !app_assoc. reflexivity. }
  apply eqb_neq in Eq, E1, E2. exists [].
  split; [|reflexivity].
  apply (G _ _ _ _ (loop_body_other llm browser Agent w Hin Eq E1 E2)).
  cbn [trace]. now rewrite app_nil_r.
Qed.

(** X16.  End of input at the second prompt: after choice [1] or [2] with no
    further line, the [EOFError] of [input] leaves the loop body (the prompt
    is outside the [try]); no agent is built and the summarizer is not
    called. *)
Theorem end_of_input_at_second_prompt
    (llm : BaseChatModel) (browser : BrowserSession) (Agent : AgentLib)
    (w : World) (line : pystr) :
  stdin w = [line] ->
  strip line = u "1" \/ strip line = u "2" ->
  result (loop_body llm browser Agent) w = Raise EOFError /\
  new_events (loop_body llm browser Agent) w
    = menu_events (Ret line)
      ++ [EInput (if eqb (strip line) (u "1") then task_prompt
                  else query_prompt) (Raise EOFError)] /\
  filter (fun e => negb (is_console_event e))
         (new_events (loop_body llm browser Agent) w) = [].
Proof.
  intros Hin [Hc|Hc].
  - pose proof (loop_body_task_eof llm browser Agent w Hin Hc) as Hrun.
    match type of Hrun with
    | _ = (_, mkWorld (_ ++ ?new) _ _) =>
        destruct (new_events_of (loop_body llm browser Agent) w new
                    Hrun eq_refl) as [Hn Hr]
    end.
    rewrite Hn, Hr, Hc, eqb_refl. auto.
  - pose proof (loop_body_query_eof llm browser Agent w Hin Hc) as Hrun.
    match type of Hrun with
    | _ = (_, mkWorld (_ ++ ?new) _ _) =>
        destruct (new_events_of (loop_body llm browser Agent) w new
                    Hrun eq_refl) as [Hn Hr]
    end.
    destruct choices_differ as (_ & _ & E).
    rewrite Hn, Hr, Hc, E. auto.
Qed.

(* ===================================================================== *)
(** ** The further properties at concrete inputs *)
(* ===================================================================== *)

Lemma main_without_credential_witness :
  main (Some []) Demo.ChatGoogle Demo.Browser Demo.BrowserProfile_ Demo.Agent_
       [u "q"]
    = Some (Raise missing_key_error, mkWorld [] [u "q"] None).
Proof.
  apply (@main_without_credential (Some []) Demo.ChatGoogle Demo.Browser
           Demo.BrowserProfile_ Demo.Agent_ [u "q"]).
  right. reflexivity.
Defined.

Lemma startup_clears_window_geometry_witness :
  exists w',
    startup (Some (u "key")) Demo.ChatGoogle Demo.Browser Demo.BrowserProfile_
      (Demo.world [u "q"])
      = (Ret (Demo.ChatGoogle (u "gemini-2.5-flash") (u "key"),
              Demo.Browser (Demo.BrowserProfile_ false true true)), w') /\
    trace w' = trace (Demo.world [u "q"]) ++ banner_events /\
    stdin w' = stdin (Demo.world [u "q"]) /\
    (forall p,
        browser_profile (Demo.Browser (Demo.BrowserProfile_ false true true))
          = Some p ->
        exists p',
          profile w' = Some p' /\
          window_size p' = None /\ window_position p' = None /\
          headless p' = headless p /\ no_viewport p' = no_viewport p /\
          keep_alive p' = keep_alive p) /\
    (browser_profile (Demo.Browser (Demo.BrowserProfile_ false true true))
       = None -> profile w' = None).
Proof.
  apply (@startup_clears_window_geometry (u "key") Demo.ChatGoogle
           Demo.Browser Demo.BrowserProfile_ (Demo.world [u "q"])).
  differ.
Defined.

Lemma main_always_shuts_down_witness :
  exists r w' evs,
    main (Some (u "key")) Demo.ChatGoogle Demo.Browser Demo.BrowserProfile_
         Demo.Agent_ [u "x"; u "q"] = Some (r, w') /\
    trace w' = banner_events ++ evs /\
    In (EPrint closing_message) evs /\
    length (terminations (trace w')) <= 1 /\
    (kill (Demo.Browser (Demo.BrowserProfile_ false true true)) <> None \/
     stop (Demo.Browser (Demo.BrowserProfile_ false true true)) <> None ->
     length (terminations (trace w')) = 1).
Proof.
  apply (@main_always_shuts_down (u "key") Demo.ChatGoogle Demo.Browser
           Demo.BrowserProfile_ Demo.Agent_ [u "x"; u "q"]).
  differ.
Defined.

Lemma session_shuts_down_after_the_loop_witness :
  exists r_loop evs rest,
    while_True 3 (loop_body Demo.llm Demo.browser Demo.Agent)
      (Demo.world [u "x"; u "q"])
      = Some (r_loop,
              mkWorld (trace (Demo.world [u "x"; u "q"]) ++ evs) rest
                (profile (Demo.world [u "x"; u "q"]))) /\
    terminations evs = [] /\
    session Demo.llm Demo.browser Demo.Agent 3 (Demo.world [u "x"; u "q"])
      = Some (match shutdown_result Demo.browser
                      (trace (Demo.world [u "x"; u "q"]) ++ evs) with
              | Ret _ => r_loop
              | Raise e => Raise e
              end,
              mkWorld (trace (Demo.world [u "x"; u "q"]) ++ evs
                       ++ shutdown_events Demo.browser
                            (trace (Demo.world [u "x"; u "q"]) ++ evs))
                rest (profile (Demo.world [u "x"; u "q"]))) /\
    (shutdown Demo.browser
       (mkWorld (trace (Demo.world [u "x"; u "q"]) ++ evs) rest
          (profile (Demo.world [u "x"; u "q"])))
     = (shutdown_result Demo.browser
          (trace (Demo.world [u "x"; u "q"]) ++ evs),
        mkWorld ((trace (Demo.world [u "x"; u "q"]) ++ evs)
                 ++ shutdown_events Demo.browser
                      (trace (Demo.world [u "x"; u "q"]) ++ evs))
          rest (profile (Demo.world [u "x"; u "q"])))).
Proof.
  apply (@session_shuts_down_after_the_loop Demo.llm Demo.browser Demo.Agent
           3 (Demo.world [u "x"; u "q"])).
  simpl. lia.
Defined.

Lemma end_of_input_shuts_down_witness :
  session Demo.llm Demo.browser Demo.Agent 1 (Demo.world [])
    = Some (match shutdown_result Demo.browser
                    (trace (Demo.world [])
                     ++ menu_events (Raise EOFError)) with
            | Ret _ => Raise EOFError
            | Raise e => Raise e
            end,
            appends (Demo.world [])
              (menu_events (Raise EOFError)
               ++ shutdown_events Demo.browser
                    (trace (Demo.world [])
                     ++ menu_events (Raise EOFError)))).
Proof.
  apply (@end_of_input_shuts_down Demo.llm Demo.browser Demo.Agent 0
           (Demo.world [])).
  reflexivity.
Defined.

(** An agent run that fails with a [RuntimeError]. *)
Lemma agent_failure_keeps_the_loop_witness :
  stdin (snd (loop_body Demo.llm Demo.browser
                (Demo.Agent_raising Demo.RuntimeError)
                (Demo.world [u "1"; u "検索して"; u "q"]))) = [u "q"] /\
  result (loop_body Demo.llm Demo.browser
            (Demo.Agent_raising Demo.RuntimeError))
    (Demo.world [u "1"; u "検索して"; u "q"]) = Ret Continue /\
  new_events (loop_body Demo.llm Demo.browser
                (Demo.Agent_raising Demo.RuntimeError))
    (Demo.world [u "1"; u "検索して"; u "q"])
    = task_events (u "1") (u "検索して")
      ++ [EAgentRun (u "検索して") (Raise Demo.RuntimeError);
          EPrint (u "Agent実行中にエラーが発生しました: "
                  +++ exc_str Demo.RuntimeError)].
Proof.
  apply (@agent_failure_keeps_the_loop Demo.llm Demo.browser
           (Demo.Agent_raising Demo.RuntimeError)
           (Demo.world [u "1"; u "検索して"; u "q"])
           (u "1") (u "検索して") [u "q"] (Raise Demo.RuntimeError)).
  - reflexivity.
  - by_computation.
  - differ.
  - by_computation.
Defined.

Lemma query_instruction_empty_iff_witness :
  query_instruction (u "検索するには？")
    = newline +++ newline +++ u "ユーザーからは「" +++ u "検索するには？"
      +++ u "」という関心・疑問が提示されています。これに対する回答を含めて要約してください。".
Proof.
  apply (proj2 (query_instruction_empty_iff (u "検索するには？"))).
  - differ.
  - differ.
Defined.

Lemma query_is_passed_stripped_witness :
  summarize_calls
    (new_events (loop_body Demo.llm Demo.browser Demo.Agent)
       (Demo.world [u "2"; u " 検索するには？ "]))
    = [strip (u " 検索するには？ ")] /\
  (forall messages,
      In messages
         (sent_messages
            (new_events (loop_body Demo.llm Demo.browser Demo.Agent)
               (Demo.world [u "2"; u " 検索するには？ "]))) ->
      exists content,
        messages
          = [SystemMessage
               (system_prompt
                  (query_instruction (strip (u " 検索するには？ "))));
             UserMessage content]).
Proof.
  apply (@query_is_passed_stripped Demo.llm Demo.browser Demo.Agent
           (Demo.world [u "2"; u " 検索するには？ "])
           (u "2") (u " 検索するには？ ") []).
  - reflexivity.
  - by_computation.
  - differ.
Defined.

Lemma reply_is_printed_verbatim_witness :
  result (loop_body Demo.llm Demo.browser Demo.Agent)
    (Demo.world [u "2"; []]) = Ret Continue /\
  exists pre,
    new_events (loop_body Demo.llm Demo.browser Demo.Agent)
      (Demo.world [u "2"; []])
      = pre ++ [EInvoke
                  (messages_of
                     (mkSummarizer Demo.browser Demo.llm default_query)
                     Demo.page (u "[12]<button>検索</button>"))
                  (Ret (Demo.reply (u "検索ページです。")));
                log_done;
                EPrint (newline +++ mul (u "-") 30);
                EPrint (u "現在の画面の状況要約:");
                EPrint (mul (u "-") 30);
                EPrint (reply_text (Demo.reply (u "検索ページです。")))].
Proof.
  apply (@reply_is_printed_verbatim Demo.llm Demo.browser Demo.Agent
           (Demo.world [u "2"; []]) (u "2") [] []).
  - reflexivity.
  - by_computation.
  - by_computation.
Defined.

Lemma failed_step_never_reaches_model_witness :
  sent_messages
    (new_events
       (summarize (mkSummarizer
                     (Demo.browser_failing_fetch Demo.RuntimeError)
                     Demo.llm []))
       (Demo.world [])) = [] /\
  result (summarize (mkSummarizer
                       (Demo.browser_failing_fetch Demo.RuntimeError)
                       Demo.llm []))
    (Demo.world []) = Raise Demo.RuntimeError.
Proof.
  apply (@failed_step_never_reaches_model
           (mkSummarizer (Demo.browser_failing_fetch Demo.RuntimeError)
              Demo.llm [])
           (Demo.world []) Demo.RuntimeError).
  left. by_computation.
Defined.

Lemma non_exception_passes_unlogged_witness :
  (result (summarize (Demo.failing_summarizer Demo.CancelledError))
     (Demo.world []) = Raise Demo.CancelledError /\
   filter is_error_record
     (new_events (summarize (Demo.failing_summarizer Demo.CancelledError))
        (Demo.world [])) = []) /\
  (result (loop_body (Demo.llm_raising Demo.CancelledError) Demo.browser
             Demo.Agent) (Demo.world [u "2"; []])
     = Raise Demo.CancelledError /\
   exists evs,
     new_events (loop_body (Demo.llm_raising Demo.CancelledError) Demo.browser
                   Demo.Agent) (Demo.world [u "2"; []])
       = query_events (u "2") [] ++ evs /\
     Forall (fun x => is_summarizer_event x = true) evs).
Proof.
  split.
  - apply (proj1 non_exception_passes_unlogged
             (Demo.failing_summarizer Demo.CancelledError) (Demo.world [])
             Demo.CancelledError).
    + by_computation.
    + reflexivity.
  - apply (proj2 non_exception_passes_unlogged
             (Demo.llm_raising Demo.CancelledError) Demo.browser Demo.Agent
             (Demo.world [u "2"; []]) (u "2") [] [] Demo.CancelledError).
    + reflexivity.
    + by_computation.
    + by_computation.
    + reflexivity.
Defined.

(** A handle without termination method still reports a normal close; a
    handle with [kill] is never asked to [stop]. *)
Lemma shutdown_reports_success_iff_witness :
  In (EPrint closed_message)
     (new_events (shutdown Demo.browser_without_methods) (Demo.world [])) /\
  (forall o, ~ In (EStop o) (new_events (shutdown Demo.browser) (Demo.world []))).
Proof.
  split.
  - apply (proj2 (proj1 (shutdown_reports_success_iff
                           Demo.browser_without_methods (Demo.world [])))).
    intros ev H. vm_compute in H. contradiction.
  - apply (proj2 (shutdown_reports_success_iff Demo.browser (Demo.world []))).
    discriminate.
Defined.

Lemma summarize_page_state_returns_reply_witness :
  result (summarize_page_state_from_session (u "検索するには？")
            Demo.browser Demo.llm) (Demo.world [])
    = Ret (reply_text (Demo.reply (u "検索ページです。"))).
Proof.
  apply (proj1 (summarize_page_state_returns_reply (u "検索するには？")
                  Demo.browser Demo.llm (Demo.world []))
           (messages_of Demo.summarizer Demo.page
              (u "[12]<button>検索</button>"))).
  by_computation.
Defined.

Lemma end_of_input_at_second_prompt_witness :
  result (loop_body Demo.llm Demo.browser Demo.Agent) (Demo.world [u "1"])
    = Raise EOFError /\
  new_events (loop_body Demo.llm Demo.browser Demo.Agent) (Demo.world [u "1"])
    = menu_events (Ret (u "1"))
      ++ [EInput (if eqb (strip (u "1")) (u "1") then task_prompt
                  else query_prompt) (Raise EOFError)] /\
  filter (fun e => negb (is_console_event e))
         (new_events (loop_body Demo.llm Demo.browser Demo.Agent)
            (Demo.world [u "1"])) = [].
Proof.
  apply (@end_of_input_at_second_prompt Demo.llm Demo.browser Demo.Agent
           (Demo.world [u "1"]) (u "1")).
  - reflexivity.
  - left. by_computation.
Defined.
